(** * zep: provider selection, retry policy, embedding dispatch, summariser

    A shallow embedding of [pkg/llms/llm_base.go], [pkg/llms/llm_openai.go],
    the embeddings entry point [EmbedTexts] and the summariser contract, with
    the properties the specification states about them.

    Conventions.
    - Go strings are [string]; the empty string is the zero value.
    - A Go [map[string]bool] is a [gmap string bool]; [_, ok := m[k]] is
      [bool_decide (is_Some (m !! k))] and the plain read [m[k]] is
      [default false (m !! k)].
    - A function returning [(T, error)] returns an [outcome T]; a call to
      [log.Fatal] ends the process and is the third constructor.
    - A [*config.LLM] is a reference into the process configuration, so the
      write [llmConfig.Model = ...] is a write into that configuration. *)

From stdpp Require Import base option list strings gmap.
From Stdlib Require Import ZArith Lia.

Local Open Scope string_scope.

(** ** Errors and outcomes *)

(** The error values the code builds or forwards. [errorString] is what
    [errors.New] and [fmt.Errorf] build; [LLMError] is the struct of
    llm_base.go; [Canceled] and [DeadlineExceeded] are the two values
    [ctx.Err()] can return. *)
#[warnings="-register-all"]
Inductive error : Type :=
| errorString (s : string)
| LLMError (message : string) (originalError : option error)
| Canceled
| DeadlineExceeded.

Inductive outcome (A : Type) : Type :=
| Returned (a : A)
| Failed (e : error)
| Fatal (msg : string).
Arguments Returned {A} a.
Arguments Failed {A} e.
Arguments Fatal {A} msg.

Definition NewLLMError (message : string) (originalError : option error) : error :=
  LLMError message originalError.


(** ** Constants and registries of llm_base.go / llm_openai.go *)

Definition InvalidLLMModelError : string := "llm model is not set or is invalid".
Definition OpenAIAPIKeyNotSetError : string := "ZEP_OPENAI_API_KEY is not set".
Definition MaxOpenAIAPIRequestAttempts : Z := 5.
(** [90 * time.Second], in nanoseconds as [time.Duration] counts. *)
Definition OpenAIAPITimeout : Z := 90 * 1000000000.

Definition ValidOpenAILLMs : gmap string bool :=
  list_to_map
    [ ("gpt-3.5-turbo", true); ("gpt-4", true);
      ("gpt-3.5-turbo-16k", true); ("gpt-4-32k", true) ].

Definition ValidOpenSourceLLMs : gmap string bool :=
  list_to_map
    [ ("meta-llama/Llama-2-7b-chat-hf", true);
      ("meta-llama/Llama-2-13b-chat-hf", true);
      ("meta-llama/Llama-2-70b-chat-hf", true) ].

Definition ValidAnthropicLLMs : gmap string bool :=
  list_to_map [ ("claude-instant-1", true); ("claude-2", true) ].

(** [_, ok := m[k]] *)
Definition has_key (m : gmap string bool) (k : string) : bool :=
  bool_decide (is_Some (m !! k)).

(** [m[k]] for a [map[string]bool]: the zero value when the key is absent. *)
Definition read (m : gmap string bool) (k : string) : bool :=
  default false (m !! k).

Definition nonempty (s : string) : bool := negb (String.eqb s "").

(** The double quote that [fmt.Errorf] puts around a model name. *)
Definition dquote : string := String (Ascii.ascii_of_nat 34) EmptyString.

(** ** Configuration (package config)

    The declarations of package [config] are not among the sources; the
    records below carry exactly the fields the code reads or writes. *)

Module AzureOpenAIConfig.
Record t : Type := mk
  { LLMDeployment : string;
    EmbeddingDeployment : string }.
End AzureOpenAIConfig.

Module LLM.
Record t : Type := mk
  { Service : string;
    Model : string;
    OpenAIAPIKey : string;
    OpenAIOrgID : string;
    OpenAIEndpoint : string;
    AzureOpenAIEndpoint : string;
    AzureOpenAIModel : AzureOpenAIConfig.t }.

Definition with_Model (m : string) (c : t) : t :=
  mk (Service c) m (OpenAIAPIKey c) (OpenAIOrgID c) (OpenAIEndpoint c)
     (AzureOpenAIEndpoint c) (AzureOpenAIModel c).
End LLM.

Module OpenAIEmbeddings.
Record t : Type := mk
  { Enabled : bool;
    Client : LLM.t }.
End OpenAIEmbeddings.

Module EmbeddingsConfig.
Record t : Type := mk
  { Enabled : bool;
    Dimensions : Z;
    Service : string }.
End EmbeddingsConfig.

Module Extractors.
Record t : Type := mk
  { Messages_Embeddings : EmbeddingsConfig.t;
    Documents_Embeddings : EmbeddingsConfig.t }.
End Extractors.

Module Config.
Record t : Type := mk
  { LLM : LLM.t;
    OpenAIEmbeddings : OpenAIEmbeddings.t;
    Extractors : Extractors.t }.
End Config.

(** The two [*config.LLM] values the callers hand to [handleOpenAIClient]:
    [cfg.LLM] and [cfg.OpenAIEmbeddings.Client]. *)
Inductive LLMRef : Type :=
| ref_LLM
| ref_EmbeddingsClient.

Definition deref (cfg : Config.t) (r : LLMRef) : LLM.t :=
  match r with
  | ref_LLM => Config.LLM cfg
  | ref_EmbeddingsClient => OpenAIEmbeddings.Client (Config.OpenAIEmbeddings cfg)
  end.

(** [r.Model = m], a write through the pointer. *)
Definition store_Model (cfg : Config.t) (r : LLMRef) (m : string) : Config.t :=
  match r with
  | ref_LLM =>
      Config.mk (LLM.with_Model m (Config.LLM cfg))
                (Config.OpenAIEmbeddings cfg) (Config.Extractors cfg)
  | ref_EmbeddingsClient =>
      Config.mk (Config.LLM cfg)
                (OpenAIEmbeddings.mk
                   (OpenAIEmbeddings.Enabled (Config.OpenAIEmbeddings cfg))
                   (LLM.with_Model m (OpenAIEmbeddings.Client (Config.OpenAIEmbeddings cfg))))
                (Config.Extractors cfg)
  end.

(** [useOpenAIEmbeddings]: a tagless [switch] takes the first true case. *)
Definition useOpenAIEmbeddings (cfg : Config.t) : bool :=
  let msgs := Extractors.Messages_Embeddings (Config.Extractors cfg) in
  let docs := Extractors.Documents_Embeddings (Config.Extractors cfg) in
  if EmbeddingsConfig.Enabled msgs then
    String.eqb (EmbeddingsConfig.Service msgs) "openai"
  else if EmbeddingsConfig.Enabled docs then
    String.eqb (EmbeddingsConfig.Service docs) "openai"
  else false.

(** ** Contexts and HTTP responses *)

(** What the code observes of a [context.Context]: the value of [ctx.Err()]. *)
Inductive Context : Type :=
| ctx_live
| ctx_canceled
| ctx_deadline_exceeded.

Definition ctx_Err (ctx : Context) : option error :=
  match ctx with
  | ctx_live => None
  | ctx_canceled => Some Canceled
  | ctx_deadline_exceeded => Some DeadlineExceeded
  end.

(** What the code observes of an [*http.Response]; [None] is the nil pointer. *)
Record Response : Type := mkResponse { StatusCode : Z }.

(** The type of a [retryablehttp.CheckRetry] function. *)
Definition CheckRetry : Type :=
  Context -> option Response -> option error -> bool * option error.

(** The fields of [retryablehttp.Client] that [NewRetryableHTTPClient] sets
    (the logger apart). *)
Record RetryableClient : Type := mkRetryableClient
  { RetryMax : Z;
    HTTPClient_Timeout : Z;
    Backoff : Z -> Z -> Z -> option Response -> Z;
    Client_CheckRetry : CheckRetry }.

(** The options [configureClient] hands to [openai.NewChat]. *)
Inductive openai_Option : Type :=
| WithHTTPClient (c : RetryableClient)
| WithModel (m : string)
| WithToken (k : string)
| WithAPIType_Azure
| WithBaseURL (u : string)
| WithEmbeddingModel (m : string)
| WithOrganization (o : string).

(** The chat messages [Call] builds: [schema.SystemChatMessage]. *)
Inductive ChatMessage : Type :=
| SystemChatMessage (Content : string).

(** ** The summariser (package extractors)

    Of the summariser the sources hold the test [TestSummarize] only. *)

(** Modelled from the spec: [Message] and [Summary] of section 3 (package
    models is not among the sources), under the field names
    [TestSummarize] uses; a UUID is its 128-bit value. *)
Record Message : Type := mkMessage
  { UUID : N;
    Role : string;
    Message_Content : string }.

Record Summary : Type := mkSummary
  { Content : string;
    TokenCount : Z;
    SummaryPointUUID : N }.

(** Modelled from the spec: the position of a summary point, that is of the
    first message carrying [id], counted from [i]; [-1] when no message
    carries it. *)
Fixpoint index_from (id : N) (messages : list Message) (i : Z) : Z :=
  match messages with
  | [] => -1
  | m :: rest => if (UUID m =? id)%N then i else index_from id rest (i + 1)
  end.

(** Modelled from the spec: the position of the prior summary's summary
    point among the messages (section 4.4, step 2). A nil prior summary, or
    one whose summary point is none of the messages (as the prior summary of
    [TestSummarize], which has no summary point), has folded none of them:
    its position is [-1]. *)
Definition priorSummaryPointIndex (messages : list Message)
    (priorSummary : option Summary) : Z :=
  match priorSummary with
  | None => -1
  | Some s => index_from (SummaryPointUUID s) messages 0
  end.

(** Modelled from the spec: step 1 of section 4.4. The quotient is Go's,
    which truncates; with a slice length for [len(messages)] the 64-bit
    arithmetic does not wrap around. *)
Definition cutIndex (windowSize : Z) (messages : list Message)
    (minPendingCount : Z) : Z :=
  Z.of_nat (length messages) - Z.max minPendingCount (windowSize ÷ 2) - 1.

(** Modelled from the spec: the messages at the positions [(lo, hi]]. *)
Definition messages_between (messages : list Message) (lo hi : Z) : list Message :=
  take (Z.to_nat (hi - lo)) (drop (Z.to_nat (lo + 1)) messages).

(** ** Sample configurations, messages and collaborators

    Concrete values on which the examples at the end are evaluated. *)

(** A default policy after the HTTP client library's: retry on a transport
    error, on 429 and on the 5xx codes other than 501. *)
Definition sample_DefaultRetryPolicy : CheckRetry := fun ctx resp err =>
  match ctx_Err ctx, err, resp with
  | Some e, _, _ => (false, Some e)
  | None, Some _, _ => (true, None)
  | None, None, Some r =>
      ((StatusCode r =? 429)%Z
       || ((500 <=? StatusCode r)%Z && negb (StatusCode r =? 501)%Z), None)
  | None, None, None => (false, None)
  end.

Definition sample_DefaultBackoff (min max attemptNum : Z) (resp : option Response) : Z :=
  Z.min max (min * 2 ^ attemptNum).

Definition sample_GetEncoding (encoding : string) : error + unit := inr tt.
Definition sample_NewChat (options : list openai_Option) : error + unit := inr tt.
Definition sample_NewAnthropicLLM (cfg : Config.t) : outcome unit := Returned tt.

Definition sample_embedTextsLocal (ctx : Context) (cfg : Config.t)
    (documentType : string) (text : list string) : outcome (list (list Z)) :=
  Returned ((fun _ => [0%Z]) <$> text).
Definition sample_CreateEmbedding (chat : unit) (ctx : Context) (timeout : Z)
    (texts : list string) : error + list (list Z) :=
  inr ((fun _ => [1%Z]) <$> texts).
Definition sample_AnthropicLLM_EmbedTexts (a : unit) (ctx : Context)
    (texts : list string) : outcome (list (list Z)) :=
  Failed (errorString "not implemented").

Definition sample_Complete (prompt : string) : error + string := inr "a summary".
Definition sample_summary_prompt (prior : string) (texts : list string) : string :=
  String.concat " " (prior :: texts).
Definition sample_count (text : string) : Z := Z.of_nat (String.length text).

Definition no_azure : AzureOpenAIConfig.t := AzureOpenAIConfig.mk "" "".

Definition extractors_off : Extractors.t :=
  Extractors.mk (EmbeddingsConfig.mk false 0 "") (EmbeddingsConfig.mk false 0 "").

(** Message embeddings on, served by OpenAI. *)
Definition extractors_openai : Extractors.t :=
  Extractors.mk (EmbeddingsConfig.mk true 1536 "openai")
                (EmbeddingsConfig.mk false 0 "").

(** A plain OpenAI configuration: a known model, no endpoint override. *)
Definition llm_plain : LLM.t :=
  LLM.mk "openai" "gpt-4" "sk-test" "" "" "" no_azure.



(** A Llama model behind a custom endpoint, with the OpenAI embeddings
    client enabled. *)
Definition cfg_custom_llama : Config.t :=
  Config.mk
    (LLM.mk "openai" "meta-llama/Llama-2-7b-chat-hf" "sk-test" ""
            "http://localhost:8080/v1" "" no_azure)
    (OpenAIEmbeddings.mk true llm_plain) extractors_openai.

(** An Azure configuration whose LLM deployment is named differently from
    the configured model. *)
Definition llm_azure : LLM.t :=
  LLM.mk "openai" "gpt-4" "sk-test" "" "" "https://example.openai.azure.com"
         (AzureOpenAIConfig.mk "gpt-3.5-turbo" "embedding-deployment").

Definition cfg_azure : Config.t :=
  Config.mk llm_azure (OpenAIEmbeddings.mk false llm_plain) extractors_off.

(** An Azure configuration with no embedding deployment. *)
Definition llm_azure_no_embedding : LLM.t :=
  LLM.mk "openai" "gpt-4" "sk-test" "" "" "https://example.openai.azure.com"
         (AzureOpenAIConfig.mk "" "").

(** Completion through Azure without an embedding deployment, while the
    message extractor embeds with OpenAI. *)
Definition cfg_azure_completion : Config.t :=
  Config.mk llm_azure_no_embedding (OpenAIEmbeddings.mk false llm_plain)
            extractors_openai.

(** The same with the message extractor's embeddings off. *)
Definition cfg_azure_embeddings_off : Config.t :=
  Config.mk llm_azure_no_embedding (OpenAIEmbeddings.mk false llm_plain)
            extractors_off.

(** Embeddings through Azure without an embedding deployment, completion
    through a custom endpoint, and the message extractor embedding with
    OpenAI. *)
Definition cfg_azure_embeddings_custom_llm : Config.t :=
  Config.mk
    (LLM.mk "openai" "meta-llama/Llama-2-7b-chat-hf" "sk-test" ""
            "http://localhost:8080/v1" "" no_azure)
    (OpenAIEmbeddings.mk true llm_azure_no_embedding) extractors_openai.

(** Embeddings through Azure without an embedding deployment, completion
    through OpenAI itself, and the message extractor embedding with OpenAI. *)
Definition cfg_azure_embeddings : Config.t :=
  Config.mk llm_plain (OpenAIEmbeddings.mk true llm_azure_no_embedding)
            extractors_openai.

(** The service left unset and a model that is in no registry. *)
Definition cfg_unset_service : Config.t :=
  Config.mk (LLM.mk "" "no-such-model" "sk-test" "" "" "" no_azure)
            (OpenAIEmbeddings.mk false llm_plain) extractors_off.

Definition cfg_plain_unknown : Config.t :=
  Config.mk (LLM.mk "openai" "no-such-model" "sk-test" "" "" "" no_azure)
            (OpenAIEmbeddings.mk false llm_plain) extractors_off.

(** Twelve messages, as [TestSummarize] takes for a window of ten. *)
Definition sample_messages : list Message :=
  (fun i => mkMessage (100 + N.of_nat i) "user" "hello") <$> seq 1 12.

(** The prior summary of [TestSummarize]: content and token count, and no
    summary point. *)
Definition existing_summary : Summary :=
  mkSummary "Existing summary content" 10 0.

(** Three messages of which the first and the last carry one identifier. *)
Definition duplicate_messages : list Message :=
  [ mkMessage 7 "user" "a"; mkMessage 8 "ai" "b"; mkMessage 7 "user" "c" ].

(** Collaborators of [Call], [GetTokenCount] and [Float64ToFloat32Matrix]:
    a call that reports a rate limit for the empty prompt, one token per
    character, and numbers standing for the floats. *)
Definition sample_Chat_Call (chat : unit) (ctx : Context) (timeout : Z)
    (messages : list ChatMessage) (options : list Z) : error + string :=
  match messages with
  | [SystemChatMessage ""] => inl (errorString "rate limit exceeded")
  | _ => inr "a completion"
  end.
Definition sample_Encode (t : unit) (text : string) : list Z :=
  (fun _ => 0%Z) <$> seq 0 (String.length text).

(** An OpenAI configuration without API key. *)
Definition llm_no_key : LLM.t :=
  LLM.mk "openai" "gpt-4" "" "" "" "" no_azure.

(** Both endpoints set on the LLM configuration. *)
Definition cfg_both_endpoints : Config.t :=
  Config.mk
    (LLM.mk "openai" "gpt-4" "sk-test" "" "http://localhost:8080/v1"
            "https://example.openai.azure.com" no_azure)
    (OpenAIEmbeddings.mk false llm_plain) extractors_off.

(** An Azure deployment whose name is no OpenAI model name. *)
Definition cfg_azure_own_deployment : Config.t :=
  Config.mk
    (LLM.mk "openai" "gpt-4" "sk-test" "" "" "https://example.openai.azure.com"
            (AzureOpenAIConfig.mk "my-deployment" "embedding-deployment"))
    (OpenAIEmbeddings.mk false llm_plain) extractors_off.

(** The embeddings client configured for the service "anthropic". *)
Definition cfg_embeddings_anthropic : Config.t :=
  Config.mk llm_plain
    (OpenAIEmbeddings.mk true
       (LLM.mk "anthropic" "claude-2" "sk-test" "" "" "" no_azure))
    extractors_off.

(** Message embeddings served locally, document embeddings by OpenAI. *)
Definition cfg_local_messages : Config.t :=
  Config.mk llm_plain (OpenAIEmbeddings.mk true llm_plain)
    (Extractors.mk (EmbeddingsConfig.mk true 384 "local")
                   (EmbeddingsConfig.mk true 1536 "openai")).

Section zep.

(** *** External collaborators

    Third-party code the package calls: the default policy and backoff of
    the retrying HTTP client, the tokenizer table, the chat client
    constructor, and the Anthropic client constructor of this package
    (its file is not among the sources). *)
Variable DefaultRetryPolicy : CheckRetry.
Variable DefaultBackoff : Z -> Z -> Z -> option Response -> Z.
Variables Tiktoken Chat AnthropicLLM : Type.
Variable tiktoken_GetEncoding : string -> error + Tiktoken.
Variable openai_NewChat : list openai_Option -> error + Chat.
Variable NewAnthropicLLM : Config.t -> outcome AnthropicLLM.

(** *** retryPolicy and NewRetryableHTTPClient (llm_base.go) *)

Definition retryPolicy : CheckRetry := fun ctx resp err =>
  match ctx_Err ctx with
  | Some e => (false, Some e)
  | None =>
      match resp with
      | Some r =>
          if (StatusCode r =? 400)%Z then (false, err)
          else (fst (DefaultRetryPolicy ctx resp err), None)
      | None => (fst (DefaultRetryPolicy ctx resp err), None)
      end
  end.

Definition NewRetryableHTTPClient (retryMax timeout : Z) : RetryableClient :=
  {| RetryMax := retryMax;
     HTTPClient_Timeout := timeout;
     Backoff := DefaultBackoff;
     Client_CheckRetry := retryPolicy |}.

(** Modelled from the spec: the send loop of the retrying transport
    (section 4.2), which belongs to the HTTP client library and not to the
    sources. One attempt is made, then [CheckRetry] is asked with the
    attempt's response and error; the loop goes on only when the answer is
    [true] and the retry budget is not used up. [transport i] is what the
    [i]-th attempt yields and [ctx i] the state of the caller's context
    when that attempt is judged. The result is the number of attempts made
    with the last attempt's response and the error to surface. *)
Fixpoint send_from (c : RetryableClient) (ctx : nat -> Context)
    (transport : nat -> option Response * option error)
    (remain : nat) (i : nat) : nat * (option Response * option error) :=
  let '(resp, doErr) := transport i in
  let '(shouldRetry, checkErr) := Client_CheckRetry c (ctx i) resp doErr in
  let surfaced := match checkErr with Some e => Some e | None => doErr end in
  if shouldRetry then
    match remain with
    | O => (S i, (resp, surfaced))
    | S remain' => send_from c ctx transport remain' (S i)
    end
  else (S i, (resp, surfaced)).

Definition send (c : RetryableClient) (ctx : nat -> Context)
    (transport : nat -> option Response * option error)
  : nat * (option Response * option error) :=
  send_from c ctx transport (Z.to_nat (RetryMax c)) 0.

(** *** NewOpenAILLM (llm_openai.go) *)

Record ZepOpenAILLM : Type := mkZepOpenAILLM
  { llm : option Chat;
    tkm : option Tiktoken }.

Definition configureClient (llmConfig : LLM.t) : outcome (list openai_Option) :=
  let apiKey := LLM.OpenAIAPIKey llmConfig in
  if String.eqb apiKey "" then Fatal OpenAIAPIKeyNotSetError
  else if nonempty (LLM.AzureOpenAIEndpoint llmConfig)
          && nonempty (LLM.OpenAIEndpoint llmConfig)
  then Fatal "only one of AzureOpenAIEndpoint or OpenAIEndpoint can be set"
  else
    let retryableHTTPClient :=
      NewRetryableHTTPClient MaxOpenAIAPIRequestAttempts OpenAIAPITimeout in
    let options :=
      [ WithHTTPClient retryableHTTPClient;
        WithModel (LLM.Model llmConfig);
        WithToken apiKey ] in
    let embeddingDeployment :=
      AzureOpenAIConfig.EmbeddingDeployment (LLM.AzureOpenAIModel llmConfig) in
    Returned
      (if nonempty (LLM.AzureOpenAIEndpoint llmConfig) then
         (options ++ [ WithAPIType_Azure;
                       WithBaseURL (LLM.AzureOpenAIEndpoint llmConfig) ])
         ++ (if nonempty embeddingDeployment
             then [ WithEmbeddingModel embeddingDeployment ] else [])
       else if nonempty (LLM.OpenAIEndpoint llmConfig) then
         options ++ [ WithBaseURL (LLM.OpenAIEndpoint llmConfig) ]
       else if nonempty (LLM.OpenAIOrgID llmConfig) then
         options ++ [ WithOrganization (LLM.OpenAIOrgID llmConfig) ]
       else options)%list.

(** [Init] fills the two fields of a fresh client; [NewOpenAILLM] returns
    the client when [Init] returns no error. *)
Definition NewOpenAILLM (llmConfig : LLM.t) : outcome ZepOpenAILLM :=
  match tiktoken_GetEncoding "cl100k_base" with
  | inl err => Failed err
  | inr tkm =>
      match configureClient llmConfig with
      | Fatal msg => Fatal msg
      | Failed err => Failed err
      | Returned options =>
          match openai_NewChat options with
          | inl err => Failed err
          | inr llm => Returned {| llm := Some llm; tkm := Some tkm |}
          end
      end
  end.

(** *** The interface models.ZepLLM

    The two implementations the package constructs. *)
Inductive ZepLLM : Type :=
| OpenAILLM (z : ZepOpenAILLM)
| AnthropicClient (a : AnthropicLLM).

Definition as_ZepLLM {A : Type} (wrap : A -> ZepLLM) (o : outcome A)
  : outcome ZepLLM :=
  match o with
  | Returned a => Returned (wrap a)
  | Failed e => Failed e
  | Fatal msg => Fatal msg
  end.

(** *** handleOpenAIClient (llm_base.go) *)

(** The error both [handleOpenAIClient] and [NewLLMClient] format for a
    refused model: the model name in double quotes, then the service. *)
Definition invalid_model_error (llmConfig : LLM.t) : error :=
  errorString ("invalid llm model " ++ dquote ++ LLM.Model llmConfig ++ dquote
               ++ " for " ++ LLM.Service llmConfig).

(** [cfg] is the process configuration, which the body reads under that
    name; [llmConfig] designates the [*config.LLM] argument inside it, and
    the two [*config.LLM] of a configuration are distinct objects. The
    result carries the configuration as the call leaves it.
    [NewOpenAILLM(ctx, cfg)] is the constructor applied to [cfg.LLM]. The
    test [clientType = ...] of the second branch is read as the comparison
    it stands for, [isUsingCustomLLMEndpoint] and [isValidLLM] as locals, and
    [isValidOpenSourceLLM] as the conjunction of [isUsingCustomLLMEndpoint]
    with the value of [ValidOpenSourceLLMs] at the model. *)
Definition handleOpenAIClient (cfg : Config.t) (llmConfig : LLMRef)
    (clientType : string) : Config.t * outcome ZepLLM :=
  if nonempty (LLM.AzureOpenAIEndpoint (deref cfg llmConfig)) then
    let deployment :=
      AzureOpenAIConfig.LLMDeployment (LLM.AzureOpenAIModel (deref cfg llmConfig)) in
    let cfg :=
      if nonempty deployment then store_Model cfg llmConfig deployment else cfg in
    if nonempty (LLM.OpenAIEndpoint (Config.LLM cfg)) then
      (cfg, as_ZepLLM OpenAILLM (NewOpenAILLM (Config.LLM cfg)))
    else if negb (has_key ValidOpenAILLMs (LLM.Model (Config.LLM cfg))) then
      (cfg, Failed (errorString ("invalid llm deployment for "
                                 ++ LLM.Service (deref cfg llmConfig)
                                 ++ ", deployment name is required")))
    else if String.eqb (AzureOpenAIConfig.EmbeddingDeployment
                          (LLM.AzureOpenAIModel (deref cfg llmConfig))) ""
            && useOpenAIEmbeddings cfg then
      (cfg, Failed (errorString ("invalid embeddings deployment for "
                                 ++ LLM.Service (deref cfg llmConfig)
                                 ++ ", deployment name is required")))
    else (cfg, as_ZepLLM OpenAILLM (NewOpenAILLM (deref cfg llmConfig)))
  else
    let isUsingCustomLLMEndpoint :=
      nonempty (LLM.OpenAIEndpoint (Config.LLM cfg))
      && OpenAIEmbeddings.Enabled (Config.OpenAIEmbeddings cfg) in
    let isValidOpenAILLM :=
      has_key ValidOpenAILLMs (LLM.Model (deref cfg llmConfig)) in
    let isValidOpenSourceLLM :=
      isUsingCustomLLMEndpoint
      && read ValidOpenSourceLLMs (LLM.Model (deref cfg llmConfig)) in
    let isValidLLM := isValidOpenAILLM || isValidOpenSourceLLM in
    let err := invalid_model_error (deref cfg llmConfig) in
    if String.eqb clientType "embeddings" && negb isValidOpenAILLM then
      (cfg, Failed err)
    else if negb isValidLLM then (cfg, Failed err)
    else (cfg, as_ZepLLM OpenAILLM (NewOpenAILLM (deref cfg llmConfig))).

(** *** NewLLMClient and NewEmbeddingsClient (llm_base.go) *)

Definition NewLLMClient (cfg : Config.t) : Config.t * outcome ZepLLM :=
  let llmConfig := Config.LLM cfg in
  if String.eqb (LLM.Service llmConfig) "openai" then
    handleOpenAIClient cfg ref_LLM "llm"
  else if String.eqb (LLM.Service llmConfig) "anthropic" then
    if negb (has_key ValidAnthropicLLMs (LLM.Model llmConfig)) then
      (cfg, Failed (invalid_model_error llmConfig))
    else (cfg, as_ZepLLM AnthropicClient (NewAnthropicLLM cfg))
  else if String.eqb (LLM.Service llmConfig) "" then
    (cfg, as_ZepLLM OpenAILLM (NewOpenAILLM llmConfig))
  else
    (cfg, Failed (errorString ("invalid LLM service: " ++ LLM.Service llmConfig))).

Definition NewEmbeddingsClient (cfg : Config.t) : Config.t * outcome ZepLLM :=
  let llmConfig := OpenAIEmbeddings.Client (Config.OpenAIEmbeddings cfg) in
  if String.eqb (LLM.Service llmConfig) "openai" then
    handleOpenAIClient cfg ref_EmbeddingsClient "embeddings"
  else if String.eqb (LLM.Service llmConfig) "" then
    (cfg, as_ZepLLM OpenAILLM (NewOpenAILLM llmConfig))
  else
    (cfg, Failed (errorString ("invalid OpenAI Embeddings service: "
                               ++ LLM.Service llmConfig))).

(** The two purposes of the specification's [resolve]. *)
Inductive purpose : Type := for_completion | for_embeddings.

Definition resolve (cfg : Config.t) (p : purpose) : Config.t * outcome ZepLLM :=
  match p with
  | for_completion => NewLLMClient cfg
  | for_embeddings => NewEmbeddingsClient cfg
  end.

(** The [*config.LLM] a purpose resolves from. *)
Definition purpose_ref (p : purpose) : LLMRef :=
  match p with
  | for_completion => ref_LLM
  | for_embeddings => ref_EmbeddingsClient
  end.

(** *** EmbedTexts and GetEmbeddingModel

    [float32] values are opaque. The local embedding function and the
    Anthropic client's method are in files that are not among the sources,
    and [CreateEmbedding] is the chat client library's. *)
Variable float32 : Type.
Variable embedTextsLocal :
  Context -> Config.t -> string -> list string -> outcome (list (list float32)).
Variable Chat_CreateEmbedding :
  Chat -> Context -> Z -> list string -> error + list (list float32).
Variable AnthropicLLM_EmbedTexts :
  AnthropicLLM -> Context -> list string -> outcome (list (list float32)).

Record EmbeddingModel : Type := mkEmbeddingModel
  { EmbeddingModel_Service : string;
    EmbeddingModel_Dimensions : Z }.

(** The fields of [models.AppState] the code reads; [None] is a nil
    interface value. *)
Record AppState : Type := mkAppState
  { EmbeddingsClient : option ZepLLM;
    AppState_Config : Config.t }.

(** The method [EmbedTexts] of [ZepOpenAILLM] (llm_openai.go); the derived context is
    the caller's with the timeout [OpenAIAPITimeout]. *)
Definition ZepOpenAILLM_EmbedTexts (zllm : ZepOpenAILLM) (ctx : Context)
    (texts : list string) : outcome (list (list float32)) :=
  match llm zllm with
  | None => Failed (NewLLMError InvalidLLMModelError None)
  | Some chat =>
      match Chat_CreateEmbedding chat ctx OpenAIAPITimeout texts with
      | inl err => Failed (NewLLMError "error while creating embedding" (Some err))
      | inr embeddings => Returned embeddings
      end
  end.

(** Method call through the interface. *)
Definition ZepLLM_EmbedTexts (c : ZepLLM) (ctx : Context) (texts : list string)
  : outcome (list (list float32)) :=
  match c with
  | OpenAILLM z => ZepOpenAILLM_EmbedTexts z ctx texts
  | AnthropicClient a => AnthropicLLM_EmbedTexts a ctx texts
  end.

(** The calls [EmbedTexts] makes, in order. *)
Inductive Call : Type :=
| call_embedTextsLocal (documentType : string) (text : list string)
| call_client_EmbedTexts (client : ZepLLM) (text : list string).

Definition EmbedTexts (ctx : Context) (appState : AppState)
    (model : EmbeddingModel) (documentType : string) (text : list string)
  : list Call * outcome (list (list float32)) :=
  if (length text =? 0)%nat then ([], Failed (errorString "no text to embed"))
  else
    match EmbeddingsClient appState with
    | None => ([], Failed (errorString InvalidLLMModelError))
    | Some embeddingsClient =>
        if String.eqb (EmbeddingModel_Service model) "local" then
          ([call_embedTextsLocal documentType text],
           embedTextsLocal ctx (AppState_Config appState) documentType text)
        else
          ([call_client_EmbedTexts embeddingsClient text],
           ZepLLM_EmbedTexts embeddingsClient ctx text)
    end.

Definition GetEmbeddingModel (appState : AppState) (documentType : string)
  : outcome EmbeddingModel :=
  let extractors := Config.Extractors (AppState_Config appState) in
  if String.eqb documentType "message" then
    let config := Extractors.Messages_Embeddings extractors in
    Returned {| EmbeddingModel_Service := EmbeddingsConfig.Service config;
                EmbeddingModel_Dimensions := EmbeddingsConfig.Dimensions config |}
  else if String.eqb documentType "document" then
    let config := Extractors.Documents_Embeddings extractors in
    Returned {| EmbeddingModel_Service := EmbeddingsConfig.Service config;
                EmbeddingModel_Dimensions := EmbeddingsConfig.Dimensions config |}
  else Failed (errorString "invalid document type").

(** *** The summariser *)

(** The completion client's [Complete] on a prompt, the summarisation
    prompt made of the prior content and the texts to fold, and the
    token counter. *)
Variable Complete : string -> error + string.
Variable summary_prompt : string -> list string -> string.
Variable count : string -> Z.

(** Modelled from the spec: [summarize] of section 4.4, whose
    implementation is not among the sources. Steps 1 and 2 decide between
    the no-op, which returns the prior summary as it is, and a
    summarisation step; steps 3 to 5 make the new summary. A nil prior
    summary has empty content. A cut index beyond the last message, which
    only a negative window and pending count give, is an index out of
    range. *)
Definition summarize (windowSize : Z) (messages : list Message)
    (priorSummary : option Summary) (minPendingCount : Z)
  : outcome (option Summary) :=
  let cut := cutIndex windowSize messages minPendingCount in
  let prior := priorSummaryPointIndex messages priorSummary in
  if (cut <? 0)%Z || (cut <=? prior)%Z then Returned priorSummary
  else
    match messages !! Z.to_nat cut with
    | None => Fatal "index out of range"
    | Some last =>
        let priorContent :=
          match priorSummary with Some s => Content s | None => "" end in
        let texts := Message_Content <$> messages_between messages prior cut in
        match Complete (summary_prompt priorContent texts) with
        | inl err => Failed err
        | inr content =>
            Returned (Some {| Content := content;
                              TokenCount := count content;
                              SummaryPointUUID := UUID last |})
        end
    end.

(** *** Further functions of llm_base.go and llm_openai.go *)

(** [internal.MergeMaps], whose file is not among the sources: the maps are
    merged from left to right, an entry of a later map replacing that of an
    earlier one. *)
Definition MergeMaps {V : Type} (maps : list (gmap string V)) : gmap string V :=
  foldl (fun result m => m ∪ result) ∅ maps.

Definition ValidLLMMap : gmap string bool :=
  MergeMaps [ValidOpenAILLMs; ValidAnthropicLLMs].

Definition MaxLLMTokensMap : gmap string Z :=
  list_to_map
    [ ("gpt-3.5-turbo", 4096%Z);
      ("gpt-3.5-turbo-16k", 16384%Z);
      ("gpt-4", 8192%Z);
      ("gpt-4-32k", 32768%Z);
      ("claude-instant-1", 100000%Z);
      ("claude-2", 100000%Z);
      ("meta-llama/Llama-2-7b-chat-hf", 4096%Z);
      ("meta-llama/Llama-2-13b-chat-hf", 4096%Z);
      ("meta-llama/Llama-2-70b-chat-hf", 4096%Z) ].

Definition GetLLMModelName (cfg : Config.t) : outcome string :=
  let llmModel := LLM.Model (Config.LLM cfg) in
  if nonempty (LLM.OpenAIEndpoint (Config.LLM cfg))
     || nonempty (LLM.AzureOpenAIEndpoint (Config.LLM cfg))
  then Returned llmModel
  else if String.eqb llmModel "" || negb (read ValidLLMMap llmModel)
  then Failed (NewLLMError InvalidLLMModelError None)
  else Returned llmModel.

(** [float64] values, the conversion [float32(v)] and the zero [float32]
    that [make] fills a fresh slice with are opaque. *)
Variable float64 : Type.
Variable float32_of_float64 : float64 -> float32.
Variable float32_zero : float32.

(** The inner loop of [Float64ToFloat32Matrix]: [out[i][j] = float32(v)] for
    the values [v] of a row, from the position [j] on. *)
Fixpoint convert_row (row : list float32) (j : nat) (vs : list float64)
  : list float32 :=
  match vs with
  | [] => row
  | v :: vs' => convert_row (<[j := float32_of_float64 v]> row) (S j) vs'
  end.

(** The outer loop: [out[i]] becomes a fresh row of the length of [in[i]],
    then filled by the inner loop. *)
Fixpoint convert_rows (out : list (list float32)) (i : nat)
    (rows : list (list float64)) : list (list float32) :=
  match rows with
  | [] => out
  | r :: rows' =>
      convert_rows
        (<[i := convert_row (replicate (length r) float32_zero) 0 r]> out)
        (S i) rows'
  end.

(** [make([][]float32, len(in))] is a slice of nil rows. *)
Definition Float64ToFloat32Matrix (input : list (list float64))
  : list (list float32) :=
  convert_rows (replicate (length input) []) 0 input.

(** The call options of the chat client library, the constant
    [DefaultTemperature] (0.0) and the client's [Call], which yields the
    content of the completion. *)
Variable CallOption : Type.
Variable llms_WithTemperature : float64 -> CallOption.
Variable DefaultTemperature : float64.
Variable Chat_Call :
  Chat -> Context -> Z -> list ChatMessage -> list CallOption -> error + string.
Variable Tiktoken_Encode : Tiktoken -> string -> list Z.

(** The method [Call] of [ZepOpenAILLM] (llm_openai.go); as in [EmbedTexts]
    the derived context is the caller's with the timeout
    [OpenAIAPITimeout]. *)
Definition ZepOpenAILLM_Call (zllm : ZepOpenAILLM) (ctx : Context)
    (prompt : string) (options : list CallOption) : outcome string :=
  match llm zllm with
  | None => Failed (NewLLMError InvalidLLMModelError None)
  | Some chat =>
      let options :=
        if (length options =? 0)%nat
        then (options ++ [llms_WithTemperature DefaultTemperature])%list
        else options in
      let messages := [SystemChatMessage prompt] in
      match Chat_Call chat ctx OpenAIAPITimeout messages options with
      | inl err => Failed err
      | inr completion => Returned completion
      end
  end.

(** The method [GetTokenCount] of [ZepOpenAILLM]; on a client without
    tokenizer the call dereferences a nil pointer. *)
Definition ZepOpenAILLM_GetTokenCount (zllm : ZepOpenAILLM) (text : string)
  : outcome Z :=
  match tkm zllm with
  | None => Fatal "nil pointer dereference"
  | Some t => Returned (Z.of_nat (length (Tiktoken_Encode t text)))
  end.

(** ** Properties of the retry policy *)

Lemma retryPolicy_400 (ctx : Context) (r : Response) (err : option error) :
  StatusCode r = 400%Z -> fst (retryPolicy ctx (Some r) err) = false.
Proof.
  intros H. unfold retryPolicy. rewrite H.
  destruct (ctx_Err ctx); reflexivity.
Qed.

(** The loop never goes past an attempt on which [CheckRetry] answered
    [false]: that attempt, if reached, is the last. *)
Lemma send_from_stops (c : RetryableClient) (ctx : nat -> Context)
    (transport : nat -> option Response * option error) (j : nat) :
  fst (Client_CheckRetry c (ctx j) (fst (transport j)) (snd (transport j))) = false ->
  forall (remain i : nat),
    (i <= j)%nat -> (fst (send_from c ctx transport remain i) <= S j)%nat.
Proof.
  intros Hstop remain.
  induction remain as [|remain IH]; intros i Hij; simpl;
    destruct (transport i) as [resp doErr] eqn:Et;
    destruct (Client_CheckRetry c (ctx i) resp doErr) as [shouldRetry checkErr] eqn:Ec;
    destruct shouldRetry; simpl; try lia.
  apply IH.
  destruct (decide (i = j)) as [->|Hne]; [|lia].
  rewrite Et in Hstop. simpl in Hstop. rewrite Ec in Hstop. discriminate.
Qed.

(** C3. A response with status code 400 is never retried: [retryPolicy]
    answers "do not retry" for every context and error; with a live context
    it hands back the error it was given; and in the send loop of a client
    built by [NewRetryableHTTPClient], whatever its retry budget, the attempt
    that got the 400 response is the last one. *)
Theorem retryPolicy_400_never_retried (ctx : Context) (r : Response)
    (err : option error) :
  StatusCode r = 400%Z ->
  fst (retryPolicy ctx (Some r) err) = false
  /\ (ctx_Err ctx = None -> retryPolicy ctx (Some r) err = (false, err))
  /\ (forall (retryMax timeout : Z) (ctxs : nat -> Context)
             (transport : nat -> option Response * option error) (i : nat),
         fst (transport i) = Some r ->
         (fst (send (NewRetryableHTTPClient retryMax timeout) ctxs transport)
          <= S i)%nat).
Proof.
  intros H400. split; [|split].
  - apply retryPolicy_400, H400.
  - intros Hlive. unfold retryPolicy. rewrite Hlive, H400. reflexivity.
  - intros retryMax timeout ctxs transport i Hresp. unfold send.
    apply send_from_stops; [|lia].
    simpl. rewrite Hresp. apply retryPolicy_400, H400.
Qed.


(** ** Properties of EmbedTexts *)

Lemma length_eqb_0_nonempty {A : Type} (l : list A) :
  l <> [] -> (length l =? 0)%nat = false.
Proof. destruct l; [congruence | reflexivity]. Qed.

(** C4, as the code has it. In every application state, with the embeddings
    client set or nil, an empty text slice is refused with the error "no
    text to embed" and no call is made. For a non-empty slice and an
    application state whose embeddings client is set, a model of service
    "local" goes to [embedTextsLocal] and to nothing else, and any other
    service goes to the [EmbedTexts] method of that client and to nothing
    else. *)
Theorem EmbedTexts_dispatch (ctx : Context) (appState : AppState)
    (model : EmbeddingModel) (documentType : string) (text : list string)
    (client : ZepLLM) :
  EmbedTexts ctx appState model documentType []
  = ([], Failed (errorString "no text to embed"))
  /\ (text <> [] ->
      EmbeddingsClient appState = Some client ->
      EmbedTexts ctx appState model documentType text
      = if String.eqb (EmbeddingModel_Service model) "local"
        then ([call_embedTextsLocal documentType text],
              embedTextsLocal ctx (AppState_Config appState) documentType text)
        else ([call_client_EmbedTexts client text],
              ZepLLM_EmbedTexts client ctx text)).
Proof.
  split; [reflexivity|].
  intros Htext Hclient. unfold EmbedTexts.
  rewrite (length_eqb_0_nonempty text Htext), Hclient. reflexivity.
Qed.

(** C10. For a non-empty text slice and an application state whose
    embeddings client is nil, [EmbedTexts] returns the error
    [InvalidLLMModelError] and makes no call, whatever the service of the
    embedding model, "local" included. *)
Theorem EmbedTexts_nil_client (ctx : Context) (appState : AppState)
    (model : EmbeddingModel) (documentType : string) (text : list string) :
  text <> [] ->
  EmbeddingsClient appState = None ->
  EmbedTexts ctx appState model documentType text
  = ([], Failed (errorString InvalidLLMModelError)).
Proof.
  intros Htext Hclient. unfold EmbedTexts.
  rewrite (length_eqb_0_nonempty text Htext), Hclient. reflexivity.
Qed.

(** ** Properties of the provider factory *)

Lemma nonempty_true (s : string) : s <> "" -> nonempty s = true.
Proof.
  intros H. unfold nonempty. apply negb_true_iff, String.eqb_neq, H.
Qed.

Lemma store_Model_same (cfg : Config.t) (r : LLMRef) :
  store_Model cfg r (LLM.Model (deref cfg r)) = cfg.
Proof.
  destruct cfg as [[] [? []] ?], r; reflexivity.
Qed.

Lemma store_Model_twice (cfg : Config.t) (r : LLMRef) (m m' : string) :
  store_Model (store_Model cfg r m) r m' = store_Model cfg r m'.
Proof. destruct r; reflexivity. Qed.

Lemma useOpenAIEmbeddings_store_Model (cfg : Config.t) (r : LLMRef) (m : string) :
  useOpenAIEmbeddings (store_Model cfg r m) = useOpenAIEmbeddings cfg.
Proof. destruct r; reflexivity. Qed.

(** The configuration [handleOpenAIClient] leaves behind. *)
Lemma handleOpenAIClient_config (cfg : Config.t) (r : LLMRef) (clientType : string) :
  fst (handleOpenAIClient cfg r clientType)
  = if nonempty (LLM.AzureOpenAIEndpoint (deref cfg r))
       && nonempty (AzureOpenAIConfig.LLMDeployment
                      (LLM.AzureOpenAIModel (deref cfg r)))
    then store_Model cfg r (AzureOpenAIConfig.LLMDeployment
                              (LLM.AzureOpenAIModel (deref cfg r)))
    else cfg.
Proof.
  unfold handleOpenAIClient.
  destruct (nonempty (LLM.AzureOpenAIEndpoint (deref cfg r))); simpl.
  - repeat match goal with
           | |- context [if ?b then _ else _] => destruct b; simpl
           end; reflexivity.
  - repeat match goal with
           | |- context [if ?b then _ else _] => destruct b; simpl
           end; reflexivity.
Qed.

(** Every value of [ValidOpenSourceLLMs] is [true], so reading the map at a
    key and testing the key's presence agree. *)
Lemma read_ValidOpenSourceLLMs (k : string) :
  read ValidOpenSourceLLMs k = has_key ValidOpenSourceLLMs k.
Proof.
  assert (Hall : map_Forall (fun _ v => v = true) ValidOpenSourceLLMs).
  { apply (bool_decide_unpack _). vm_compute. exact I. }
  unfold read, has_key.
  destruct (ValidOpenSourceLLMs !! k) as [b|] eqn:Hk; simpl.
  - rewrite (Hall k b Hk). reflexivity.
  - reflexivity.
Qed.


(** C5, as the code has it. Resolving a client changes the configuration in
    one case only: for the service "openai" with the Azure endpoint set and a
    non-empty Azure LLM deployment, the model of the LLM configuration being
    resolved is overwritten with the deployment name. In every case, putting
    the old model back gives the configuration as it was, so no other field
    is written. *)
Theorem resolve_config_frame (cfg : Config.t) (p : purpose) :
  fst (resolve cfg p)
  = (if String.eqb (LLM.Service (deref cfg (purpose_ref p))) "openai"
        && nonempty (LLM.AzureOpenAIEndpoint (deref cfg (purpose_ref p)))
        && nonempty (AzureOpenAIConfig.LLMDeployment
                       (LLM.AzureOpenAIModel (deref cfg (purpose_ref p))))
     then store_Model cfg (purpose_ref p)
            (AzureOpenAIConfig.LLMDeployment
               (LLM.AzureOpenAIModel (deref cfg (purpose_ref p))))
     else cfg)
  /\ store_Model (fst (resolve cfg p)) (purpose_ref p)
       (LLM.Model (deref cfg (purpose_ref p))) = cfg.
Proof.
  assert (Hfst : fst (resolve cfg p)
    = (if String.eqb (LLM.Service (deref cfg (purpose_ref p))) "openai"
          && nonempty (LLM.AzureOpenAIEndpoint (deref cfg (purpose_ref p)))
          && nonempty (AzureOpenAIConfig.LLMDeployment
                         (LLM.AzureOpenAIModel (deref cfg (purpose_ref p))))
       then store_Model cfg (purpose_ref p)
              (AzureOpenAIConfig.LLMDeployment
                 (LLM.AzureOpenAIModel (deref cfg (purpose_ref p))))
       else cfg)).
  { destruct p; simpl; unfold NewLLMClient, NewEmbeddingsClient.
    - destruct (String.eqb (LLM.Service (Config.LLM cfg)) "openai"); simpl.
      + apply handleOpenAIClient_config.
      + repeat match goal with
               | |- context [if ?b then _ else _] => destruct b; simpl
               end; reflexivity.
    - destruct (String.eqb (LLM.Service _) "openai"); simpl.
      + apply handleOpenAIClient_config.
      + repeat match goal with
               | |- context [if ?b then _ else _] => destruct b; simpl
               end; reflexivity. }
  split; [exact Hfst|].
  rewrite Hfst.
  destruct (_ && _ && _).
  - rewrite store_Model_twice. apply store_Model_same.
  - apply store_Model_same.
Qed.

(** C6, as the code has it. With no custom endpoint and no Azure endpoint,
    resolution for the service "openai" (either purpose) with a model that is
    no key of [ValidOpenAILLMs], and resolution of a completion client for
    the service "anthropic" with a model that is no key of
    [ValidAnthropicLLMs], return the error naming the model and no client,
    and leave the configuration as it was. *)
Theorem resolve_rejects_unknown_model (cfg : Config.t) (p : purpose) :
  LLM.OpenAIEndpoint (Config.LLM cfg) = "" ->
  LLM.AzureOpenAIEndpoint (deref cfg (purpose_ref p)) = "" ->
  (LLM.Service (deref cfg (purpose_ref p)) = "openai"
   /\ has_key ValidOpenAILLMs (LLM.Model (deref cfg (purpose_ref p))) = false)
  \/ (p = for_completion
      /\ LLM.Service (deref cfg (purpose_ref p)) = "anthropic"
      /\ has_key ValidAnthropicLLMs (LLM.Model (deref cfg (purpose_ref p))) = false) ->
  resolve cfg p
  = (cfg, Failed (errorString
                    ("invalid llm model " ++ dquote
                     ++ LLM.Model (deref cfg (purpose_ref p)) ++ dquote
                     ++ " for " ++ LLM.Service (deref cfg (purpose_ref p))))).
Proof.
  intros Hcustom Hazure [[Hservice Hmodel] | (-> & Hservice & Hmodel)].
  - destruct p; simpl in *;
      unfold NewLLMClient, NewEmbeddingsClient, handleOpenAIClient,
        invalid_model_error; simpl;
      rewrite Hservice, Hazure, Hmodel; simpl.
    + rewrite Hcustom. reflexivity.
    + reflexivity.
  - simpl in *. unfold NewLLMClient, invalid_model_error.
    rewrite Hservice, Hmodel. reflexivity.
Qed.

(** C9, as the code has it. For the service "openai" with the Azure endpoint
    set, when the main LLM configuration has no custom endpoint and its
    model, after the deployment override, is a key of [ValidOpenAILLMs],
    resolution for either purpose returns the error "invalid embeddings
    deployment" when the Azure embedding deployment is empty and
    [useOpenAIEmbeddings] holds, and goes on to construct the client in
    every other case. *)
Theorem resolve_azure_embedding_deployment (cfg : Config.t) (p : purpose) :
  LLM.Service (deref cfg (purpose_ref p)) = "openai" ->
  LLM.AzureOpenAIEndpoint (deref cfg (purpose_ref p)) <> "" ->
  LLM.OpenAIEndpoint (Config.LLM cfg) = "" ->
  has_key ValidOpenAILLMs (LLM.Model (Config.LLM (fst (resolve cfg p)))) = true ->
  snd (resolve cfg p)
  = if String.eqb (AzureOpenAIConfig.EmbeddingDeployment
                     (LLM.AzureOpenAIModel (deref cfg (purpose_ref p)))) ""
       && useOpenAIEmbeddings cfg
    then Failed (errorString
                   "invalid embeddings deployment for openai, deployment name is required")
    else as_ZepLLM OpenAILLM
           (NewOpenAILLM (deref (fst (resolve cfg p)) (purpose_ref p))).
Proof.
  intros Hservice Hazure Hcustom.
  assert (Hres : resolve cfg p
                 = handleOpenAIClient cfg (purpose_ref p)
                     (match p with
                      | for_completion => "llm"
                      | for_embeddings => "embeddings"
                      end)).
  { destruct p; simpl in *; unfold NewLLMClient, NewEmbeddingsClient;
      rewrite Hservice; reflexivity. }
  rewrite Hres. clear Hres.
  generalize (match p with
              | for_completion => "llm"
              | for_embeddings => "embeddings"
              end) as clientType.
  intros clientType.
  rewrite handleOpenAIClient_config.
  unfold handleOpenAIClient.
  rewrite (nonempty_true _ Hazure). simpl.
  set (deployment := AzureOpenAIConfig.LLMDeployment
                       (LLM.AzureOpenAIModel (deref cfg (purpose_ref p)))).
  assert (Hep : forall m,
             LLM.OpenAIEndpoint (Config.LLM (store_Model cfg (purpose_ref p) m)) = "").
  { intros m. destruct p; simpl; exact Hcustom. }
  assert (Hdr : forall m,
             LLM.Service (deref (store_Model cfg (purpose_ref p) m) (purpose_ref p))
             = "openai"
             /\ AzureOpenAIConfig.EmbeddingDeployment
                  (LLM.AzureOpenAIModel
                     (deref (store_Model cfg (purpose_ref p) m) (purpose_ref p)))
                = AzureOpenAIConfig.EmbeddingDeployment
                    (LLM.AzureOpenAIModel (deref cfg (purpose_ref p)))).
  { intros m. destruct p; simpl in *; rewrite Hservice; split; reflexivity. }
  destruct (nonempty deployment); intros Hvalid.
  - rewrite Hep. simpl. rewrite Hvalid. simpl.
    destruct (Hdr deployment) as [-> ->].
    rewrite useOpenAIEmbeddings_store_Model.
    destruct (_ && _); reflexivity.
  - rewrite Hcustom. simpl. rewrite Hvalid. simpl. rewrite Hservice.
    destruct (_ && _); reflexivity.
Qed.

(** ** Properties of the summariser *)

Lemma index_from_NoDup (messages : list Message) :
  NoDup (UUID <$> messages) ->
  forall (n : nat) (m : Message) (i : Z),
    messages !! n = Some m ->
    index_from (UUID m) messages i = (i + Z.of_nat n)%Z.
Proof.
  induction messages as [|m0 rest IH]; intros Hnd n m i Hn; [discriminate|].
  simpl in Hnd. apply NoDup_cons in Hnd as [Hnotin Hnd].
  destruct n as [|n]; simpl in *.
  - inversion Hn; subst. rewrite N.eqb_refl. lia.
  - destruct (UUID m0 =? UUID m)%N eqn:E.
    + apply N.eqb_eq in E. exfalso. apply Hnotin. rewrite E.
      apply list_elem_of_fmap. exists m. split; [reflexivity|].
      eapply list_elem_of_lookup_2, Hn.
    + rewrite (IH Hnd n m (i + 1)%Z Hn). lia.
Qed.

(** The two ways [summarize] returns a summary: the no-op, with the prior
    summary, and a summarisation step, with the message at the cut index. *)
Lemma summarize_Returned (windowSize : Z) (messages : list Message)
    (priorSummary : option Summary) (minPendingCount : Z) (s : Summary) :
  summarize windowSize messages priorSummary minPendingCount = Returned (Some s) ->
  (priorSummary = Some s
   /\ (cutIndex windowSize messages minPendingCount <? 0)%Z
      || (cutIndex windowSize messages minPendingCount
          <=? priorSummaryPointIndex messages priorSummary)%Z = true)
  \/ (exists last : Message,
         messages !! Z.to_nat (cutIndex windowSize messages minPendingCount) = Some last
         /\ SummaryPointUUID s = UUID last
         /\ (0 <= cutIndex windowSize messages minPendingCount)%Z).
Proof.
  unfold summarize.
  destruct (_ || _) eqn:Hnoop.
  - intros H. left. split; [congruence | reflexivity].
  - destruct (messages !! _) as [last|] eqn:Hlast; [|discriminate].
    destruct (Complete _) as [err|content]; [discriminate|].
    intros H. right. exists last. inversion H; subst; simpl.
    apply orb_false_iff in Hnoop as [Hneg _]. apply Z.ltb_ge in Hneg.
    auto.
Qed.

(** C1. For a window size above zero and a pending count of at most half of
    it, when the index [len(messages) - windowSize/2 - 1] is not negative and
    lies past the prior summary's summary point, and the completion call on
    the summarisation prompt returns a text, [summarize] returns a new
    summary whose summary point is the identifier of the message at that
    index; the prior summary may be nil or not. *)
Theorem summarize_summary_point (windowSize : Z) (messages : list Message)
    (priorSummary : option Summary) (minPendingCount : Z) (content : string) :
  (0 < windowSize)%Z ->
  (minPendingCount <= windowSize ÷ 2)%Z ->
  (0 <= Z.of_nat (length messages) - windowSize ÷ 2 - 1)%Z ->
  (priorSummaryPointIndex messages priorSummary
   < Z.of_nat (length messages) - windowSize ÷ 2 - 1)%Z ->
  Complete
    (summary_prompt
       (match priorSummary with Some s => Content s | None => "" end)
       (Message_Content
          <$> messages_between messages
                (priorSummaryPointIndex messages priorSummary)
                (Z.of_nat (length messages) - windowSize ÷ 2 - 1)))
  = inr content ->
  exists m : Message,
    messages !! Z.to_nat (Z.of_nat (length messages) - windowSize ÷ 2 - 1) = Some m
    /\ summarize windowSize messages priorSummary minPendingCount
       = Returned (Some {| Content := content;
                           TokenCount := count content;
                           SummaryPointUUID := UUID m |}).
Proof.
  intros Hw Hmp Hidx Hadv Hcomplete.
  assert (Hhalf : (0 <= windowSize ÷ 2)%Z) by (apply Z.quot_pos; lia).
  assert (Hcut : cutIndex windowSize messages minPendingCount
                 = (Z.of_nat (length messages) - windowSize ÷ 2 - 1)%Z).
  { unfold cutIndex. rewrite Z.max_r by lia. reflexivity. }
  destruct (lookup_lt_is_Some_2 messages
              (Z.to_nat (Z.of_nat (length messages) - windowSize ÷ 2 - 1)))
    as [m Hm]; [lia|].
  exists m. split; [exact Hm|].
  unfold summarize. rewrite Hcut.
  replace (_ || _) with false
    by (symmetry; apply orb_false_iff; split;
        [apply Z.ltb_ge | apply Z.leb_gt]; lia).
  rewrite Hm, Hcomplete. reflexivity.
Qed.

(** C8. Let [summarize] over some messages have returned the summary [s].
    Calling it again with the same messages and [s] as the prior summary:
    whenever it returns, it returns a summary with the summary point of [s],
    so the point does not move backward; it returns [s] itself, a success,
    when the cut index is negative or does not lie past the summary point of
    [s]; and it returns [s] itself whenever the message identifiers are
    pairwise distinct. *)
Theorem summarize_idempotent_forward (windowSize : Z) (messages : list Message)
    (priorSummary : option Summary) (minPendingCount : Z) (s : Summary) :
  summarize windowSize messages priorSummary minPendingCount = Returned (Some s) ->
  (forall r : option Summary,
      summarize windowSize messages (Some s) minPendingCount = Returned r ->
      exists s' : Summary,
        r = Some s'
        /\ SummaryPointUUID s' = SummaryPointUUID s
        /\ (priorSummaryPointIndex messages (Some s)
            <= priorSummaryPointIndex messages (Some s'))%Z)
  /\ ((cutIndex windowSize messages minPendingCount < 0)%Z
      \/ (cutIndex windowSize messages minPendingCount
          <= priorSummaryPointIndex messages (Some s))%Z ->
      summarize windowSize messages (Some s) minPendingCount = Returned (Some s))
  /\ (NoDup (UUID <$> messages) ->
      summarize windowSize messages (Some s) minPendingCount = Returned (Some s)).
Proof.
  intros Hfirst.
  assert (Hnoop : (cutIndex windowSize messages minPendingCount < 0)%Z
                  \/ (cutIndex windowSize messages minPendingCount
                      <= priorSummaryPointIndex messages (Some s))%Z ->
                  summarize windowSize messages (Some s) minPendingCount
                  = Returned (Some s)).
  { intros H. unfold summarize.
    replace (_ || _) with true; [reflexivity|].
    symmetry. apply orb_true_iff.
    destruct H; [left; apply Z.ltb_lt | right; apply Z.leb_le]; assumption. }
  split; [|split; [exact Hnoop|]].
  - intros r Hsecond.
    destruct (summarize_Returned _ _ _ _ _ Hfirst)
      as [[-> _] | (last & Hlast & Hid & _)].
    + rewrite Hfirst in Hsecond. inversion Hsecond; subst.
      exists s. split; [reflexivity|]. split; [reflexivity|]. lia.
    + unfold summarize in Hsecond.
      destruct (_ || _); [inversion Hsecond; subst; exists s; repeat split; lia|].
      rewrite Hlast in Hsecond.
      destruct (Complete _) as [err|content]; [discriminate|].
      inversion Hsecond; subst. eexists. split; [reflexivity|]. simpl.
      split; [congruence|]. rewrite Hid. lia.
  - intros Hnd.
    destruct (summarize_Returned _ _ _ _ _ Hfirst)
      as [[-> _] | (last & Hlast & Hid & Hpos)].
    + exact Hfirst.
    + apply Hnoop. right. simpl. rewrite Hid.
      rewrite (index_from_NoDup messages Hnd _ last 0%Z Hlast). lia.
Qed.

(** ** Properties of the registries and of GetLLMModelName *)

Lemma read_all_true (m : gmap string bool) :
  map_Forall (fun _ v => v = true) m -> forall k : string, read m k = has_key m k.
Proof.
  intros Hall k. unfold read, has_key.
  destruct (m !! k) as [b|] eqn:Hk; simpl; [|reflexivity].
  rewrite (Hall k b Hk). reflexivity.
Qed.

Lemma has_key_true (m : gmap string bool) (k : string) :
  has_key m k = true <-> is_Some (m !! k).
Proof. unfold has_key. apply bool_decide_eq_true. Qed.

(** Reading the merged map is testing the key in either registry. *)
Lemma read_ValidLLMMap (k : string) :
  read ValidLLMMap k = has_key ValidOpenAILLMs k || has_key ValidAnthropicLLMs k.
Proof.
  rewrite read_all_true
    by (apply (bool_decide_unpack _); vm_compute; exact I).
  apply eq_true_iff_eq. rewrite orb_true_iff, !has_key_true.
  unfold ValidLLMMap, MergeMaps. simpl.
  rewrite !lookup_union_is_Some, lookup_empty.
  pose proof (@is_Some_None bool) as Hnone. clear -Hnone. tauto.
Qed.

(** X1. [GetLLMModelName] returns the configured model, unvalidated, when a
    custom or an Azure endpoint is set; otherwise it returns the model when
    it is a known OpenAI or Anthropic model and fails with the [LLMError]
    "llm model is not set or is invalid" for every other model, the empty
    one included. *)
Theorem GetLLMModelName_cases (cfg : Config.t) :
  GetLLMModelName cfg
  = if nonempty (LLM.OpenAIEndpoint (Config.LLM cfg))
       || nonempty (LLM.AzureOpenAIEndpoint (Config.LLM cfg))
       || has_key ValidOpenAILLMs (LLM.Model (Config.LLM cfg))
       || has_key ValidAnthropicLLMs (LLM.Model (Config.LLM cfg))
    then Returned (LLM.Model (Config.LLM cfg))
    else Failed (LLMError InvalidLLMModelError None).
Proof.
  unfold GetLLMModelName.
  destruct (nonempty _ || nonempty _); simpl; [reflexivity|].
  rewrite read_ValidLLMMap.
  destruct (String.eqb_spec (LLM.Model (Config.LLM cfg)) "") as [->|_]; simpl.
  - reflexivity.
  - destruct (has_key ValidOpenAILLMs _ || has_key ValidAnthropicLLMs _);
      reflexivity.
Qed.

Lemma MaxLLMTokensMap_dom :
  dom MaxLLMTokensMap
  = dom ValidOpenAILLMs ∪ dom ValidAnthropicLLMs ∪ dom ValidOpenSourceLLMs.
Proof. apply (bool_decide_unpack _). vm_compute. exact I. Qed.

Lemma MaxLLMTokensMap_bounds :
  map_Forall (fun _ n => (4096 <= n <= 100000)%Z) MaxLLMTokensMap.
Proof. apply (bool_decide_unpack _). vm_compute. exact I. Qed.

(** X2. Every model of the three registries has a token limit in
    [MaxLLMTokensMap], every limit there belongs to a model of a registry,
    and the limits lie between 4096 and 100000. *)
Theorem MaxLLMTokensMap_covers_registries (k : string) :
  (has_key ValidOpenAILLMs k || has_key ValidAnthropicLLMs k
   || has_key ValidOpenSourceLLMs k = true
   <-> is_Some (MaxLLMTokensMap !! k))
  /\ (forall n : Z, MaxLLMTokensMap !! k = Some n -> (4096 <= n <= 100000)%Z).
Proof.
  split.
  - rewrite <- elem_of_dom, MaxLLMTokensMap_dom, !elem_of_union, !elem_of_dom.
    rewrite !orb_true_iff, !has_key_true. clear. tauto.
  - intros n Hn. exact (MaxLLMTokensMap_bounds k n Hn).
Qed.

(** ** Properties of configureClient and NewOpenAILLM *)

Lemma nonempty_true_iff (s : string) : nonempty s = true <-> s <> "".
Proof.
  unfold nonempty. rewrite negb_true_iff. apply String.eqb_neq.
Qed.

Lemma nonempty_false_iff (s : string) : nonempty s = false <-> s = "".
Proof.
  unfold nonempty. rewrite negb_false_iff. apply String.eqb_eq.
Qed.

(** What [configureClient] has checked and built when it returns. *)
Lemma configureClient_Returned (llmConfig : LLM.t) (options : list openai_Option) :
  configureClient llmConfig = Returned options ->
  LLM.OpenAIAPIKey llmConfig <> ""
  /\ (LLM.AzureOpenAIEndpoint llmConfig = "" \/ LLM.OpenAIEndpoint llmConfig = "")
  /\ exists extra : list openai_Option,
       options
       = ([ WithHTTPClient
              (NewRetryableHTTPClient MaxOpenAIAPIRequestAttempts OpenAIAPITimeout);
            WithModel (LLM.Model llmConfig);
            WithToken (LLM.OpenAIAPIKey llmConfig) ] ++ extra)%list
       /\ extra
          = if nonempty (LLM.AzureOpenAIEndpoint llmConfig) then
              ([ WithAPIType_Azure; WithBaseURL (LLM.AzureOpenAIEndpoint llmConfig) ]
               ++ (if nonempty (AzureOpenAIConfig.EmbeddingDeployment
                                  (LLM.AzureOpenAIModel llmConfig))
                   then [ WithEmbeddingModel
                            (AzureOpenAIConfig.EmbeddingDeployment
                               (LLM.AzureOpenAIModel llmConfig)) ]
                   else []))%list
            else if nonempty (LLM.OpenAIEndpoint llmConfig) then
              [ WithBaseURL (LLM.OpenAIEndpoint llmConfig) ]
            else if nonempty (LLM.OpenAIOrgID llmConfig) then
              [ WithOrganization (LLM.OpenAIOrgID llmConfig) ]
            else [].
Proof.
  unfold configureClient.
  destruct (String.eqb_spec (LLM.OpenAIAPIKey llmConfig) "") as [|Hkey];
    [discriminate|].
  destruct (nonempty (LLM.AzureOpenAIEndpoint llmConfig)) eqn:Ha;
    destruct (nonempty (LLM.OpenAIEndpoint llmConfig)) eqn:Hc; simpl;
    try discriminate; intros [= <-];
    (split; [exact Hkey|]);
    (split; [first [ left; apply nonempty_false_iff; assumption
                   | right; apply nonempty_false_iff; assumption ]|]);
    eexists; (split; [|reflexivity]).
  - destruct (nonempty (AzureOpenAIConfig.EmbeddingDeployment _)); reflexivity.
  - reflexivity.
  - destruct (nonempty (LLM.OpenAIOrgID llmConfig)); reflexivity.
Qed.

(** What [NewOpenAILLM] has done when it returns a client. *)
Lemma NewOpenAILLM_Returned (llmConfig : LLM.t) (z : ZepOpenAILLM) :
  NewOpenAILLM llmConfig = Returned z ->
  exists (t : Tiktoken) (options : list openai_Option) (chat : Chat),
    tiktoken_GetEncoding "cl100k_base" = inr t
    /\ configureClient llmConfig = Returned options
    /\ openai_NewChat options = inr chat
    /\ z = {| llm := Some chat; tkm := Some t |}.
Proof.
  unfold NewOpenAILLM.
  destruct (tiktoken_GetEncoding _) as [|t] eqn:Ht; [discriminate|].
  destruct (configureClient llmConfig) as [options| |]; try discriminate.
  destruct (openai_NewChat options) as [|chat] eqn:Hchat; [discriminate|].
  intros [= <-]. exists t, options, chat. auto.
Qed.

(** X3. [NewOpenAILLM] returns a client only for a configuration with an API
    key and with at most one of the Azure and the custom endpoint, and the
    client it returns has its chat client and its tokenizer set. *)
Theorem NewOpenAILLM_client_initialised (llmConfig : LLM.t) (z : ZepOpenAILLM) :
  NewOpenAILLM llmConfig = Returned z ->
  LLM.OpenAIAPIKey llmConfig <> ""
  /\ (LLM.AzureOpenAIEndpoint llmConfig = "" \/ LLM.OpenAIEndpoint llmConfig = "")
  /\ is_Some (llm z) /\ is_Some (tkm z).
Proof.
  intros H.
  destruct (NewOpenAILLM_Returned _ _ H) as (t & options & chat & _ & Hcfg & _ & ->).
  destruct (configureClient_Returned _ _ Hcfg) as (Hkey & Hone & _).
  simpl. eauto.
Qed.

(** X4. Once the tokenizer is loaded, [NewOpenAILLM] ends the process for an
    empty API key, with the message [OpenAIAPIKeyNotSetError], and otherwise
    for a configuration with both endpoints set; and these are the only ways
    it ends the process. The API key is checked first. *)
Theorem NewOpenAILLM_fatal (llmConfig : LLM.t) (t : Tiktoken) :
  tiktoken_GetEncoding "cl100k_base" = inr t ->
  (LLM.OpenAIAPIKey llmConfig = "" ->
   NewOpenAILLM llmConfig = Fatal OpenAIAPIKeyNotSetError)
  /\ (LLM.OpenAIAPIKey llmConfig <> "" ->
      LLM.AzureOpenAIEndpoint llmConfig <> "" ->
      LLM.OpenAIEndpoint llmConfig <> "" ->
      NewOpenAILLM llmConfig
      = Fatal "only one of AzureOpenAIEndpoint or OpenAIEndpoint can be set")
  /\ (forall msg : string,
         NewOpenAILLM llmConfig = Fatal msg ->
         LLM.OpenAIAPIKey llmConfig = ""
         \/ (LLM.AzureOpenAIEndpoint llmConfig <> ""
             /\ LLM.OpenAIEndpoint llmConfig <> "")).
Proof.
  intros Ht. unfold NewOpenAILLM, configureClient. rewrite Ht.
  split; [|split].
  - intros ->. reflexivity.
  - intros Hkey Ha Hc.
    apply String.eqb_neq in Hkey. rewrite Hkey.
    rewrite (nonempty_true _ Ha), (nonempty_true _ Hc). reflexivity.
  - intros msg.
    destruct (String.eqb_spec (LLM.OpenAIAPIKey llmConfig) "") as [|Hkey];
      [auto|].
    destruct (nonempty (LLM.AzureOpenAIEndpoint llmConfig)) eqn:Ha;
      destruct (nonempty (LLM.OpenAIEndpoint llmConfig)) eqn:Hc; simpl;
      try (destruct (openai_NewChat _); discriminate).
    intros _. right. split; apply nonempty_true_iff; assumption.
Qed.

(** X5. The options [configureClient] returns name the configured model and
    the API key; carry a base URL exactly for a set endpoint (the Azure
    endpoint, or else the custom one); the Azure API type exactly for a set
    Azure endpoint; the embedding deployment only under an Azure endpoint;
    and the organization only when no endpoint is set. *)
Theorem configureClient_options (llmConfig : LLM.t) (options : list openai_Option) :
  configureClient llmConfig = Returned options ->
  WithModel (LLM.Model llmConfig) ∈ options
  /\ WithToken (LLM.OpenAIAPIKey llmConfig) ∈ options
  /\ (forall u : string,
         WithBaseURL u ∈ options
         <-> u <> ""
             /\ (u = LLM.AzureOpenAIEndpoint llmConfig
                 \/ (LLM.AzureOpenAIEndpoint llmConfig = ""
                     /\ u = LLM.OpenAIEndpoint llmConfig)))
  /\ (WithAPIType_Azure ∈ options <-> LLM.AzureOpenAIEndpoint llmConfig <> "")
  /\ (forall m : string,
         WithEmbeddingModel m ∈ options
         <-> m <> "" /\ LLM.AzureOpenAIEndpoint llmConfig <> ""
             /\ m = AzureOpenAIConfig.EmbeddingDeployment
                      (LLM.AzureOpenAIModel llmConfig))
  /\ (forall o : string,
         WithOrganization o ∈ options
         <-> o <> "" /\ LLM.AzureOpenAIEndpoint llmConfig = ""
             /\ LLM.OpenAIEndpoint llmConfig = ""
             /\ o = LLM.OpenAIOrgID llmConfig).
Proof.
  intros H.
  destruct (configureClient_Returned _ _ H) as (_ & Hone & extra & -> & ->).
  unfold nonempty.
  destruct (String.eqb_spec (LLM.AzureOpenAIEndpoint llmConfig) "") as [Ha|Ha];
    destruct (String.eqb_spec (LLM.OpenAIEndpoint llmConfig) "") as [Hc|Hc];
    try (destruct Hone; congruence); clear Hone;
    destruct (String.eqb_spec (LLM.OpenAIOrgID llmConfig) "") as [Ho|Ho];
    destruct (String.eqb_spec (AzureOpenAIConfig.EmbeddingDeployment
                                 (LLM.AzureOpenAIModel llmConfig)) "") as [He|He];
    simpl; clear -Ha Hc Ho He;
    (split; [rewrite ?elem_of_cons; auto|]);
    (split; [rewrite ?elem_of_cons; auto|]);
    (split; [intros u; rewrite ?elem_of_cons, elem_of_nil; intuition congruence|]);
    (split; [rewrite ?elem_of_cons, elem_of_nil; intuition congruence|]);
    (split; intros x; rewrite ?elem_of_cons, elem_of_nil; intuition congruence).
Qed.

(** X6. The HTTP client among the options [configureClient] returns allows
    [MaxOpenAIAPIRequestAttempts] retries under the timeout
    [OpenAIAPITimeout], never retries a 400 response, and under a done
    context stops with the context's error. *)
Theorem configureClient_http_client (llmConfig : LLM.t)
    (options : list openai_Option) :
  configureClient llmConfig = Returned options ->
  (exists c : RetryableClient, WithHTTPClient c ∈ options)
  /\ (forall c : RetryableClient,
         WithHTTPClient c ∈ options ->
         RetryMax c = 5%Z
         /\ HTTPClient_Timeout c = (90 * 1000000000)%Z
         /\ (forall (ctx : Context) (r : Response) (err : option error),
                StatusCode r = 400%Z ->
                fst (Client_CheckRetry c ctx (Some r) err) = false)
         /\ (forall (ctx : Context) (resp : option Response)
                    (err : option error) (e : error),
                ctx_Err ctx = Some e ->
                Client_CheckRetry c ctx resp err = (false, Some e))).
Proof.
  intros H.
  destruct (configureClient_Returned _ _ H) as (_ & _ & extra & -> & ->).
  split.
  - eexists. apply elem_of_app. left. apply list_elem_of_here.
  - intros c Hc.
    assert (c = NewRetryableHTTPClient MaxOpenAIAPIRequestAttempts OpenAIAPITimeout)
      as ->.
    { repeat match goal with
             | |- context [if ?b then _ else _] => destruct b
             | H : context [if ?b then _ else _] |- _ => destruct b
             end;
        simpl in Hc; rewrite ?elem_of_cons, elem_of_nil in Hc;
        clear -Hc; intuition congruence. }
    split; [reflexivity|]. split; [reflexivity|]. split.
    + intros ctx r err H400. simpl. apply retryPolicy_400, H400.
    + intros ctx resp err e He. simpl. unfold retryPolicy. rewrite He.
      reflexivity.
Qed.

(** X7. [retryPolicy] returns an error only when the context is done (the
    context's error) or, under a live context, for a 400 response (the
    error of the attempt); in every other case it returns the decision of
    the default policy and no error, whatever error that policy reports. *)
Theorem retryPolicy_error_origin (ctx : Context) (resp : option Response)
    (err : option error) (e : error) :
  snd (retryPolicy ctx resp err) = Some e ->
  ctx_Err ctx = Some e
  \/ (ctx_Err ctx = None
      /\ err = Some e
      /\ exists r : Response, resp = Some r /\ StatusCode r = 400%Z).
Proof.
  unfold retryPolicy.
  destruct (ctx_Err ctx) as [e'|]; simpl; [intros [= ->]; auto|].
  destruct resp as [r|]; [|discriminate].
  destruct (Z.eqb_spec (StatusCode r) 400); simpl; [|discriminate].
  intros ->. right. eauto.
Qed.

(** ** Properties of the factory as a whole *)

Lemma as_ZepLLM_Returned {A : Type} (wrap : A -> ZepLLM) (o : outcome A) (c : ZepLLM) :
  as_ZepLLM wrap o = Returned c -> exists a : A, o = Returned a /\ c = wrap a.
Proof. destruct o; simpl; [|discriminate..]. intros [= <-]. eauto. Qed.

(** The ways [handleOpenAIClient] returns a client. *)
Lemma handleOpenAIClient_Returned (cfg : Config.t) (r : LLMRef)
    (clientType : string) (cfg' : Config.t) (c : ZepLLM) :
  handleOpenAIClient cfg r clientType = (cfg', Returned c) ->
  exists z : ZepOpenAILLM,
    c = OpenAILLM z
    /\ ((nonempty (LLM.AzureOpenAIEndpoint (deref cfg r)) = true
         /\ cfg' = (if nonempty (AzureOpenAIConfig.LLMDeployment
                                   (LLM.AzureOpenAIModel (deref cfg r)))
                    then store_Model cfg r
                           (AzureOpenAIConfig.LLMDeployment
                              (LLM.AzureOpenAIModel (deref cfg r)))
                    else cfg)
         /\ ((nonempty (LLM.OpenAIEndpoint (Config.LLM cfg')) = true
              /\ NewOpenAILLM (Config.LLM cfg') = Returned z)
             \/ (nonempty (LLM.OpenAIEndpoint (Config.LLM cfg')) = false
                 /\ has_key ValidOpenAILLMs (LLM.Model (Config.LLM cfg')) = true
                 /\ NewOpenAILLM (deref cfg' r) = Returned z)))
        \/ (nonempty (LLM.AzureOpenAIEndpoint (deref cfg r)) = false
            /\ cfg' = cfg
            /\ (has_key ValidOpenAILLMs (LLM.Model (deref cfg r)) = true
                \/ (String.eqb clientType "embeddings" = false
                    /\ nonempty (LLM.OpenAIEndpoint (Config.LLM cfg)) = true
                    /\ OpenAIEmbeddings.Enabled (Config.OpenAIEmbeddings cfg) = true
                    /\ read ValidOpenSourceLLMs (LLM.Model (deref cfg r)) = true))
            /\ NewOpenAILLM (deref cfg r) = Returned z)).
Proof.
  unfold handleOpenAIClient.
  destruct (nonempty (LLM.AzureOpenAIEndpoint (deref cfg r))) eqn:Ha.
  - set (cfg1 := if nonempty _ then store_Model cfg r _ else cfg).
    destruct (nonempty (LLM.OpenAIEndpoint (Config.LLM cfg1))) eqn:Hc.
    + intros [= <- H]. apply as_ZepLLM_Returned in H as (z & Hz & ->).
      exists z. split; [reflexivity|]. left. rewrite Hc. auto.
    + destruct (has_key ValidOpenAILLMs (LLM.Model (Config.LLM cfg1))) eqn:Hm;
        simpl; [|discriminate].
      destruct (_ && _); [discriminate|].
      intros [= <- H]. apply as_ZepLLM_Returned in H as (z & Hz & ->).
      exists z. split; [reflexivity|]. left. rewrite Hc, Hm. auto 6.
  - destruct (String.eqb clientType "embeddings") eqn:Hct;
      destruct (has_key ValidOpenAILLMs (LLM.Model (deref cfg r))) eqn:Hm;
      simpl; try discriminate.
    + intros [= <- H]. apply as_ZepLLM_Returned in H as (z & Hz & ->).
      exists z. split; [reflexivity|]. right. auto.
    + intros [= <- H]. apply as_ZepLLM_Returned in H as (z & Hz & ->).
      exists z. split; [reflexivity|]. right. auto.
    + destruct (nonempty (LLM.OpenAIEndpoint (Config.LLM cfg))) eqn:Hc;
        simpl; [|discriminate].
      destruct (OpenAIEmbeddings.Enabled (Config.OpenAIEmbeddings cfg)) eqn:He;
        simpl; [|discriminate].
      destruct (read ValidOpenSourceLLMs (LLM.Model (deref cfg r))) eqn:Hos;
        simpl; [|discriminate].
      intros [= <- H]. apply as_ZepLLM_Returned in H as (z & Hz & ->).
      exists z. split; [reflexivity|]. right. auto 8.
Qed.

(** The four services [NewLLMClient] tells apart. *)
Lemma NewLLMClient_service (cfg : Config.t) :
  (LLM.Service (Config.LLM cfg) = "openai"
   /\ NewLLMClient cfg = handleOpenAIClient cfg ref_LLM "llm")
  \/ (LLM.Service (Config.LLM cfg) = "anthropic"
      /\ NewLLMClient cfg
         = (cfg, if has_key ValidAnthropicLLMs (LLM.Model (Config.LLM cfg))
                 then as_ZepLLM AnthropicClient (NewAnthropicLLM cfg)
                 else Failed (invalid_model_error (Config.LLM cfg))))
  \/ (LLM.Service (Config.LLM cfg) = ""
      /\ NewLLMClient cfg
         = (cfg, as_ZepLLM OpenAILLM (NewOpenAILLM (Config.LLM cfg))))
  \/ (LLM.Service (Config.LLM cfg) <> "openai"
      /\ LLM.Service (Config.LLM cfg) <> "anthropic"
      /\ LLM.Service (Config.LLM cfg) <> ""
      /\ NewLLMClient cfg
         = (cfg, Failed (errorString ("invalid LLM service: "
                                      ++ LLM.Service (Config.LLM cfg))))).
Proof.
  unfold NewLLMClient.
  destruct (String.eqb_spec (LLM.Service (Config.LLM cfg)) "openai"); [auto|].
  destruct (String.eqb_spec (LLM.Service (Config.LLM cfg)) "anthropic").
  { right. left. split; [assumption|].
    destruct (has_key ValidAnthropicLLMs _); reflexivity. }
  destruct (String.eqb_spec (LLM.Service (Config.LLM cfg)) ""); [auto|].
  right. right. right. auto.
Qed.

Lemma NewEmbeddingsClient_service (cfg : Config.t) :
  (LLM.Service (deref cfg ref_EmbeddingsClient) = "openai"
   /\ NewEmbeddingsClient cfg = handleOpenAIClient cfg ref_EmbeddingsClient "embeddings")
  \/ (LLM.Service (deref cfg ref_EmbeddingsClient) = ""
      /\ NewEmbeddingsClient cfg
         = (cfg, as_ZepLLM OpenAILLM (NewOpenAILLM (deref cfg ref_EmbeddingsClient))))
  \/ (LLM.Service (deref cfg ref_EmbeddingsClient) <> "openai"
      /\ LLM.Service (deref cfg ref_EmbeddingsClient) <> ""
      /\ NewEmbeddingsClient cfg
         = (cfg, Failed (errorString ("invalid OpenAI Embeddings service: "
                                      ++ LLM.Service (deref cfg ref_EmbeddingsClient))))).
Proof.
  unfold NewEmbeddingsClient. simpl.
  destruct (String.eqb_spec
              (LLM.Service (OpenAIEmbeddings.Client (Config.OpenAIEmbeddings cfg)))
              "openai"); [auto|].
  destruct (String.eqb_spec
              (LLM.Service (OpenAIEmbeddings.Client (Config.OpenAIEmbeddings cfg)))
              ""); [auto|].
  right. right. auto.
Qed.

(** X8. The implementation a resolution returns follows the service: an
    Anthropic client only for a completion client of the service
    "anthropic" with a known Anthropic model, and in every other case an
    OpenAI client with its chat client and tokenizer set, for the service
    "openai" or the unset one. An embeddings client is always an OpenAI
    client. *)
Theorem resolve_client_kind (cfg : Config.t) (p : purpose) (cfg' : Config.t)
    (c : ZepLLM) :
  resolve cfg p = (cfg', Returned c) ->
  (exists z : ZepOpenAILLM,
      c = OpenAILLM z /\ is_Some (llm z) /\ is_Some (tkm z)
      /\ (LLM.Service (deref cfg (purpose_ref p)) = "openai"
          \/ LLM.Service (deref cfg (purpose_ref p)) = ""))
  \/ (exists a : AnthropicLLM,
         c = AnthropicClient a /\ p = for_completion
         /\ LLM.Service (Config.LLM cfg) = "anthropic"
         /\ has_key ValidAnthropicLLMs (LLM.Model (Config.LLM cfg)) = true
         /\ NewAnthropicLLM cfg = Returned a).
Proof.
  assert (Hinit : forall l z, NewOpenAILLM l = Returned z ->
                              is_Some (llm z) /\ is_Some (tkm z)).
  { intros l z H. destruct (NewOpenAILLM_Returned _ _ H) as (t & o & ch & _ & _ & _ & ->).
    simpl. eauto. }
  assert (Hh : forall r ct, handleOpenAIClient cfg r ct = (cfg', Returned c) ->
                            exists z, c = OpenAILLM z /\ is_Some (llm z)
                                      /\ is_Some (tkm z)).
  { intros r ct H.
    destruct (handleOpenAIClient_Returned _ _ _ _ _ H)
      as (z & -> & [(_ & _ & [[_ Hz] | (_ & _ & Hz)]) | (_ & _ & _ & Hz)]);
      exists z; (split; [reflexivity|]); eapply Hinit; eassumption. }
  destruct p; simpl.
  - destruct (NewLLMClient_service cfg)
      as [[Hs ->] | [[Hs ->] | [[Hs ->] | (_ & _ & _ & ->)]]].
    + intros H. destruct (Hh _ _ H) as (z & -> & Hl & Ht). left. eauto 8.
    + destruct (has_key ValidAnthropicLLMs _) eqn:Hm; [|discriminate].
      intros [= <- H]. apply as_ZepLLM_Returned in H as (a & Ha & ->).
      right. eauto 8.
    + intros [= <- H]. apply as_ZepLLM_Returned in H as (z & Hz & ->).
      destruct (Hinit _ _ Hz). left. eauto 8.
    + discriminate.
  - destruct (NewEmbeddingsClient_service cfg)
      as [[Hs ->] | [[Hs ->] | (_ & _ & ->)]].
    + intros H. destruct (Hh _ _ H) as (z & -> & Hl & Ht). left. eauto 8.
    + intros [= <- H]. apply as_ZepLLM_Returned in H as (z & Hz & ->).
      destruct (Hinit _ _ Hz). left. eauto 8.
    + discriminate.
Qed.

(** X9. A service the factory does not know is refused with an error naming
    it, and the configuration is left as it was: for a completion client
    every service but "openai", "anthropic" and the unset one, for an
    embeddings client every service but "openai" and the unset one,
    "anthropic" included. *)
Theorem resolve_unknown_service (cfg : Config.t) (p : purpose) :
  LLM.Service (deref cfg (purpose_ref p)) <> "openai" ->
  LLM.Service (deref cfg (purpose_ref p)) <> "" ->
  (p = for_completion -> LLM.Service (deref cfg (purpose_ref p)) <> "anthropic") ->
  resolve cfg p
  = (cfg,
     Failed (errorString
               ((match p with
                 | for_completion => "invalid LLM service: "
                 | for_embeddings => "invalid OpenAI Embeddings service: "
                 end) ++ LLM.Service (deref cfg (purpose_ref p))))).
Proof.
  intros Ho He Ha. destruct p; simpl in *.
  - destruct (NewLLMClient_service cfg)
      as [[Hs _] | [[Hs _] | [[Hs _] | (_ & _ & _ & ->)]]];
      [congruence | | congruence | reflexivity].
    exfalso. apply Ha; [reflexivity | exact Hs].
  - destruct (NewEmbeddingsClient_service cfg)
      as [[Hs _] | [[Hs _] | (_ & _ & ->)]];
      [simpl in Hs; congruence | simpl in Hs; congruence | reflexivity].
Qed.

(** X10. With the service "openai" or unset and both the Azure and the
    custom endpoint set on the LLM configuration, [NewLLMClient] never
    returns a client; once the tokenizer is loaded and an API key is set it
    ends the process with the message that only one endpoint can be set. *)
Theorem NewLLMClient_both_endpoints (cfg : Config.t) :
  LLM.Service (Config.LLM cfg) = "openai" \/ LLM.Service (Config.LLM cfg) = "" ->
  LLM.AzureOpenAIEndpoint (Config.LLM cfg) <> "" ->
  LLM.OpenAIEndpoint (Config.LLM cfg) <> "" ->
  (forall c : ZepLLM, snd (NewLLMClient cfg) <> Returned c)
  /\ (forall t : Tiktoken,
         tiktoken_GetEncoding "cl100k_base" = inr t ->
         LLM.OpenAIAPIKey (Config.LLM cfg) <> "" ->
         snd (NewLLMClient cfg)
         = Fatal "only one of AzureOpenAIEndpoint or OpenAIEndpoint can be set").
Proof.
  intros Hs Ha Hc.
  assert (Hres : exists l : LLM.t,
             snd (NewLLMClient cfg) = as_ZepLLM OpenAILLM (NewOpenAILLM l)
             /\ LLM.AzureOpenAIEndpoint l = LLM.AzureOpenAIEndpoint (Config.LLM cfg)
             /\ LLM.OpenAIEndpoint l = LLM.OpenAIEndpoint (Config.LLM cfg)
             /\ LLM.OpenAIAPIKey l = LLM.OpenAIAPIKey (Config.LLM cfg)).
  { destruct Hs as [Hs|Hs].
    - unfold NewLLMClient. rewrite Hs. simpl. unfold handleOpenAIClient. simpl.
      rewrite (nonempty_true _ Ha).
      destruct (nonempty (AzureOpenAIConfig.LLMDeployment _)); simpl;
        rewrite (nonempty_true _ Hc); simpl; eexists; split; try reflexivity;
        simpl; auto.
    - unfold NewLLMClient. rewrite Hs. simpl. eexists. split; [reflexivity|]. auto. }
  destruct Hres as (l & -> & Hla & Hlc & Hlk).
  split.
  - intros c H. apply as_ZepLLM_Returned in H as (z & Hz & _).
    destruct (NewOpenAILLM_Returned _ _ Hz) as (t & o & ch & _ & Hcfg & _).
    destruct (configureClient_Returned _ _ Hcfg) as (_ & [H|H] & _); congruence.
  - intros t Ht Hk. unfold NewOpenAILLM, configureClient. rewrite Ht.
    rewrite Hlk, Hla, Hlc.
    apply String.eqb_neq in Hk. rewrite Hk.
    rewrite (nonempty_true _ Ha), (nonempty_true _ Hc). reflexivity.
Qed.

(** X11. For the service "openai" with the Azure endpoint set and no custom
    endpoint on the main LLM configuration, resolution fails with the error
    "invalid llm deployment" whenever the model of the main LLM
    configuration, after the deployment override, is no key of
    [ValidOpenAILLMs]: a deployment name has to be a known OpenAI model
    name. *)
Theorem resolve_azure_invalid_deployment (cfg : Config.t) (p : purpose) :
  LLM.Service (deref cfg (purpose_ref p)) = "openai" ->
  LLM.AzureOpenAIEndpoint (deref cfg (purpose_ref p)) <> "" ->
  LLM.OpenAIEndpoint (Config.LLM cfg) = "" ->
  has_key ValidOpenAILLMs (LLM.Model (Config.LLM (fst (resolve cfg p)))) = false ->
  snd (resolve cfg p)
  = Failed (errorString
              "invalid llm deployment for openai, deployment name is required").
Proof.
  intros Hservice Hazure Hcustom.
  assert (Hres : resolve cfg p
                 = handleOpenAIClient cfg (purpose_ref p)
                     (match p with
                      | for_completion => "llm"
                      | for_embeddings => "embeddings"
                      end)).
  { destruct p; simpl in *; unfold NewLLMClient, NewEmbeddingsClient;
      rewrite Hservice; reflexivity. }
  rewrite Hres. clear Hres.
  generalize (match p with
              | for_completion => "llm"
              | for_embeddings => "embeddings"
              end) as clientType.
  intros clientType.
  rewrite handleOpenAIClient_config.
  unfold handleOpenAIClient.
  rewrite (nonempty_true _ Hazure). simpl.
  assert (Hep : forall m,
             LLM.OpenAIEndpoint (Config.LLM (store_Model cfg (purpose_ref p) m)) = "").
  { intros m. destruct p; simpl; exact Hcustom. }
  assert (Hsv : forall m,
             LLM.Service (deref (store_Model cfg (purpose_ref p) m) (purpose_ref p))
             = "openai").
  { intros m. destruct p; simpl in *; exact Hservice. }
  destruct (nonempty (AzureOpenAIConfig.LLMDeployment _)); intros Hinvalid.
  - rewrite Hep. simpl. rewrite Hinvalid. simpl. rewrite Hsv. reflexivity.
  - rewrite Hcustom. simpl. rewrite Hinvalid. simpl. rewrite Hservice. reflexivity.
Qed.

(** X12. Resolving again from the configuration a resolution leaves behind
    gives the same configuration and the same outcome: the model overwrite
    is applied once. *)
Theorem resolve_twice (cfg : Config.t) (p : purpose) :
  resolve (fst (resolve cfg p)) p = resolve cfg p.
Proof.
  assert (Hh : forall r ct,
             handleOpenAIClient (fst (handleOpenAIClient cfg r ct)) r ct
             = handleOpenAIClient cfg r ct).
  { intros r ct. rewrite handleOpenAIClient_config.
    destruct (nonempty (LLM.AzureOpenAIEndpoint (deref cfg r))) eqn:Ha; simpl;
      [|reflexivity].
    destruct (nonempty (AzureOpenAIConfig.LLMDeployment
                          (LLM.AzureOpenAIModel (deref cfg r)))) eqn:Hd;
      [|reflexivity].
    unfold handleOpenAIClient.
    assert (Hl : LLM.AzureOpenAIEndpoint
                   (deref (store_Model cfg r
                             (AzureOpenAIConfig.LLMDeployment
                                (LLM.AzureOpenAIModel (deref cfg r)))) r)
                 = LLM.AzureOpenAIEndpoint (deref cfg r)
                 /\ LLM.AzureOpenAIModel
                      (deref (store_Model cfg r
                                (AzureOpenAIConfig.LLMDeployment
                                   (LLM.AzureOpenAIModel (deref cfg r)))) r)
                    = LLM.AzureOpenAIModel (deref cfg r)).
    { destruct r; split; reflexivity. }
    destruct Hl as [-> ->]. rewrite Ha, Hd. rewrite store_Model_twice.
    reflexivity. }
  destruct p; simpl.
  - destruct (NewLLMClient_service cfg)
      as [[Hs H] | [[Hs H] | [[Hs H] | (Hs1 & Hs2 & Hs3 & H)]]]; rewrite H.
    + assert (Hs' : LLM.Service (Config.LLM (fst (handleOpenAIClient cfg ref_LLM "llm")))
                    = "openai").
      { rewrite handleOpenAIClient_config. destruct (_ && _); exact Hs. }
      unfold NewLLMClient at 1. rewrite Hs'. simpl. apply Hh.
    + simpl. exact H.
    + simpl. exact H.
    + simpl. exact H.
  - destruct (NewEmbeddingsClient_service cfg)
      as [[Hs H] | [[Hs H] | (Hs1 & Hs2 & H)]]; rewrite H.
    + assert (Hs' : LLM.Service
                      (deref (fst (handleOpenAIClient cfg ref_EmbeddingsClient
                                     "embeddings")) ref_EmbeddingsClient)
                    = "openai").
      { rewrite handleOpenAIClient_config. destruct (_ && _); exact Hs. }
      unfold NewEmbeddingsClient at 1. simpl in Hs'. rewrite Hs'. simpl. apply Hh.
    + simpl. exact H.
    + simpl. exact H.
Qed.

(** ** Properties across the factory, the registries and the client *)

Lemma has_key_nonempty (k : string) :
  has_key ValidOpenAILLMs k || has_key ValidAnthropicLLMs k = true -> k <> "".
Proof. intros H ->. vm_compute in H. discriminate. Qed.

(** A set endpoint or a known model makes [GetLLMModelName] return the
    model. *)
Lemma GetLLMModelName_accepts (cfg : Config.t) :
  nonempty (LLM.OpenAIEndpoint (Config.LLM cfg)) = true
  \/ nonempty (LLM.AzureOpenAIEndpoint (Config.LLM cfg)) = true
  \/ has_key ValidOpenAILLMs (LLM.Model (Config.LLM cfg))
     || has_key ValidAnthropicLLMs (LLM.Model (Config.LLM cfg)) = true ->
  GetLLMModelName cfg = Returned (LLM.Model (Config.LLM cfg)).
Proof.
  unfold GetLLMModelName. intros [H | [H | H]].
  - rewrite H. reflexivity.
  - rewrite H, orb_true_r. reflexivity.
  - destruct (nonempty _ || nonempty _); [reflexivity|].
    rewrite read_ValidLLMMap, H.
    apply has_key_nonempty, String.eqb_neq in H. rewrite H. reflexivity.
Qed.

Lemma MaxLLMTokensMap_known (k : string) :
  has_key ValidOpenAILLMs k || has_key ValidAnthropicLLMs k
  || has_key ValidOpenSourceLLMs k = true ->
  exists n : Z, MaxLLMTokensMap !! k = Some n /\ (4096 <= n <= 100000)%Z.
Proof.
  intros H.
  assert (Hin : is_Some (MaxLLMTokensMap !! k)).
  { rewrite <- elem_of_dom, MaxLLMTokensMap_dom, !elem_of_union, !elem_of_dom.
    rewrite !orb_true_iff, !has_key_true in H. clear -H. tauto. }
  destruct Hin as [n Hn]. exists n. split; [exact Hn|].
  exact (MaxLLMTokensMap_bounds k n Hn).
Qed.

(** X13. When [NewLLMClient], for a service that is set, returns a client,
    [GetLLMModelName] on the configuration it leaves behind returns that
    configuration's model: the factory and the name lookup agree. *)
Theorem NewLLMClient_then_GetLLMModelName (cfg cfg' : Config.t) (c : ZepLLM) :
  LLM.Service (Config.LLM cfg) <> "" ->
  NewLLMClient cfg = (cfg', Returned c) ->
  GetLLMModelName cfg' = Returned (LLM.Model (Config.LLM cfg')).
Proof.
  intros Hset.
  destruct (NewLLMClient_service cfg)
    as [[Hs ->] | [[Hs ->] | [[Hs _] | (_ & _ & _ & ->)]]];
    [| | congruence | discriminate].
  - intros H.
    destruct (handleOpenAIClient_Returned _ _ _ _ _ H)
      as (z & _ & [(Ha & -> & _) | (_ & -> & [Hm | (_ & Hc & _)] & _)]).
    + apply GetLLMModelName_accepts. right. left.
      simpl in Ha. destruct (nonempty (AzureOpenAIConfig.LLMDeployment _));
        simpl; exact Ha.
    + apply GetLLMModelName_accepts. right. right. simpl in Hm. rewrite Hm.
      reflexivity.
    + apply GetLLMModelName_accepts. left. exact Hc.
  - destruct (has_key ValidAnthropicLLMs _) eqn:Hm; [|discriminate].
    intros [= <- _]. apply GetLLMModelName_accepts. right. right.
    rewrite Hm. apply orb_true_r.
Qed.

(** X14. A client that [NewLLMClient] returns after validating the model,
    that is for the service "openai" without Azure endpoint or for the
    service "anthropic", is for a model that has a token limit in
    [MaxLLMTokensMap]. *)
Theorem NewLLMClient_model_has_token_limit (cfg cfg' : Config.t) (c : ZepLLM) :
  (LLM.Service (Config.LLM cfg) = "openai"
   /\ LLM.AzureOpenAIEndpoint (Config.LLM cfg) = "")
  \/ LLM.Service (Config.LLM cfg) = "anthropic" ->
  NewLLMClient cfg = (cfg', Returned c) ->
  exists n : Z,
    MaxLLMTokensMap !! LLM.Model (Config.LLM cfg') = Some n
    /\ (4096 <= n <= 100000)%Z.
Proof.
  intros Hs.
  destruct (NewLLMClient_service cfg)
    as [[Hs' ->] | [[Hs' ->] | [[Hs' _] | (Hs1 & Hs2 & _ & _)]]].
  - destruct Hs as [[_ Ha] | Hs]; [|congruence].
    intros H.
    destruct (handleOpenAIClient_Returned _ _ _ _ _ H)
      as (z & _ & [(Ha' & _) | (_ & -> & [Hm | (_ & _ & _ & Hos)] & _)]).
    + simpl in Ha'. rewrite Ha in Ha'. discriminate.
    + apply MaxLLMTokensMap_known. simpl in Hm. rewrite Hm. reflexivity.
    + apply MaxLLMTokensMap_known. simpl in Hos.
      rewrite read_ValidOpenSourceLLMs in Hos. rewrite Hos. apply orb_true_r.
  - destruct (has_key ValidAnthropicLLMs _) eqn:Hm; [|discriminate].
    intros [= <- _]. apply MaxLLMTokensMap_known. rewrite Hm.
    rewrite orb_true_r. reflexivity.
  - destruct Hs as [[Hs _] | Hs]; rewrite Hs' in Hs; discriminate.
  - destruct Hs as [[Hs _] | Hs]; congruence.
Qed.

(** X15. The chat client inside an OpenAI client that [NewLLMClient] returns
    was constructed from options naming the model and the API key of the
    configuration the call leaves behind; for the service "openai" with the
    Azure endpoint and an Azure LLM deployment set, that model is the
    deployment name and the options carry the Azure API type and the Azure
    endpoint as base URL. *)
Theorem NewLLMClient_client_options (cfg cfg' : Config.t) (z : ZepOpenAILLM) :
  NewLLMClient cfg = (cfg', Returned (OpenAILLM z)) ->
  exists (options : list openai_Option) (chat : Chat),
    openai_NewChat options = inr chat
    /\ llm z = Some chat
    /\ WithModel (LLM.Model (Config.LLM cfg')) ∈ options
    /\ WithToken (LLM.OpenAIAPIKey (Config.LLM cfg')) ∈ options
    /\ (LLM.Service (Config.LLM cfg) = "openai" ->
        LLM.AzureOpenAIEndpoint (Config.LLM cfg) <> "" ->
        AzureOpenAIConfig.LLMDeployment (LLM.AzureOpenAIModel (Config.LLM cfg)) <> "" ->
        LLM.Model (Config.LLM cfg')
        = AzureOpenAIConfig.LLMDeployment (LLM.AzureOpenAIModel (Config.LLM cfg))
        /\ WithAPIType_Azure ∈ options
        /\ WithBaseURL (LLM.AzureOpenAIEndpoint (Config.LLM cfg)) ∈ options).
Proof.
  intros H.
  assert (Hz : NewOpenAILLM (Config.LLM cfg') = Returned z
               /\ (LLM.Service (Config.LLM cfg) = "openai" ->
                   LLM.AzureOpenAIEndpoint (Config.LLM cfg) <> "" ->
                   AzureOpenAIConfig.LLMDeployment
                     (LLM.AzureOpenAIModel (Config.LLM cfg)) <> "" ->
                   cfg' = store_Model cfg ref_LLM
                            (AzureOpenAIConfig.LLMDeployment
                               (LLM.AzureOpenAIModel (Config.LLM cfg))))).
  { destruct (NewLLMClient_service cfg)
      as [[Hs Hr] | [[Hs Hr] | [[Hs Hr] | (_ & _ & _ & Hr)]]];
      rewrite Hr in H.
    - destruct (handleOpenAIClient_Returned _ _ _ _ _ H)
        as (z' & [= <-] & [(Ha & Hcfg & [[_ Hn] | (_ & _ & Hn)])
                          | (Ha & -> & _ & Hn)]).
      + split; [exact Hn|]. intros _ _ Hd. rewrite Hcfg. simpl.
        rewrite (nonempty_true _ Hd). reflexivity.
      + split; [exact Hn|]. intros _ _ Hd. rewrite Hcfg. simpl.
        rewrite (nonempty_true _ Hd). reflexivity.
      + split; [exact Hn|]. intros _ Ha'. simpl in Ha.
        apply nonempty_false_iff in Ha. congruence.
    - destruct (has_key ValidAnthropicLLMs _); [|discriminate].
      injection H as _ H. apply as_ZepLLM_Returned in H as (a & _ & [=]).
    - injection H as <- H. apply as_ZepLLM_Returned in H as (z' & Hn & [= <-]).
      split; [exact Hn|]. intros Hs'. rewrite Hs in Hs'. discriminate.
    - discriminate. }
  destruct Hz as [Hz Hazure].
  destruct (NewOpenAILLM_Returned _ _ Hz) as (t & options & chat & _ & Hc & Hchat & ->).
  destruct (configureClient_Returned _ _ Hc) as (_ & _ & extra & -> & Hextra).
  exists ([ WithHTTPClient
              (NewRetryableHTTPClient MaxOpenAIAPIRequestAttempts OpenAIAPITimeout);
            WithModel (LLM.Model (Config.LLM cfg'));
            WithToken (LLM.OpenAIAPIKey (Config.LLM cfg')) ] ++ extra)%list, chat.
  split; [exact Hchat|]. split; [reflexivity|].
  split; [rewrite elem_of_app, !elem_of_cons; auto|].
  split; [rewrite elem_of_app, !elem_of_cons; auto|].
  intros Hs Ha Hd. specialize (Hazure Hs Ha Hd). subst cfg'. simpl in *.
  split; [reflexivity|].
  rewrite (nonempty_true _ Ha) in Hextra. subst extra.
  split; rewrite ?elem_of_app, !elem_of_cons; auto 10.
Qed.

(** X16. A client returned by [NewOpenAILLM] never answers with the error of
    an uninitialised client: a failure of [Call] is the error of the chat
    client's call itself, unwrapped, made with a non-empty option list that
    is the caller's whenever the caller gave options; a failure of
    [EmbedTexts] is the [LLMError] "error while creating embedding" around
    the chat client's error; and [GetTokenCount] returns a count that is
    not negative. *)
Theorem NewOpenAILLM_client_methods (llmConfig : LLM.t) (z : ZepOpenAILLM) :
  NewOpenAILLM llmConfig = Returned z ->
  exists chat : Chat,
    llm z = Some chat
    /\ (forall (ctx : Context) (prompt : string) (options : list CallOption)
               (e : error),
           ZepOpenAILLM_Call z ctx prompt options = Failed e ->
           exists used : list CallOption,
             Chat_Call chat ctx OpenAIAPITimeout [SystemChatMessage prompt] used
             = inl e
             /\ used <> []
             /\ (options <> [] -> used = options)
             /\ (options = [] -> used = [llms_WithTemperature DefaultTemperature]))
    /\ (forall (ctx : Context) (texts : list string) (e : error),
           ZepOpenAILLM_EmbedTexts z ctx texts = Failed e ->
           exists cause : error,
             Chat_CreateEmbedding chat ctx OpenAIAPITimeout texts = inl cause
             /\ e = LLMError "error while creating embedding" (Some cause))
    /\ (forall text : string,
           exists n : Z,
             ZepOpenAILLM_GetTokenCount z text = Returned n /\ (0 <= n)%Z).
Proof.
  intros H.
  destruct (NewOpenAILLM_Returned _ _ H) as (t & o & chat & _ & _ & _ & ->).
  exists chat. split; [reflexivity|]. split; [|split].
  - intros ctx prompt options e. unfold ZepOpenAILLM_Call. simpl.
    destruct options as [|opt options]; simpl.
    + destruct (Chat_Call _ _ _ _ _) as [err|s] eqn:Hc; [|discriminate].
      intros [= <-]. eexists. split; [exact Hc|]. repeat split; congruence.
    + destruct (Chat_Call _ _ _ _ _) as [err|s] eqn:Hc; [|discriminate].
      intros [= <-]. eexists. split; [exact Hc|]. repeat split; congruence.
  - intros ctx texts e. unfold ZepOpenAILLM_EmbedTexts. simpl.
    destruct (Chat_CreateEmbedding _ _ _ _) as [err|v] eqn:Hc; [|discriminate].
    intros [= <-]. eauto.
  - intros text. unfold ZepOpenAILLM_GetTokenCount. simpl.
    eexists. split; [reflexivity|]. lia.
Qed.

(** ** Properties of the embedding model lookup *)

(** X17. [useOpenAIEmbeddings] holds exactly when the message extractor's
    embeddings are enabled with the service "openai", or they are disabled
    and the document extractor's embeddings are enabled with the service
    "openai": the document extractor is not looked at while message
    embeddings are enabled. In both cases [GetEmbeddingModel] for that
    document type returns a model of the service "openai". *)
Theorem useOpenAIEmbeddings_cases (appState : AppState) :
  useOpenAIEmbeddings (AppState_Config appState) = true
  <-> (EmbeddingsConfig.Enabled
         (Extractors.Messages_Embeddings
            (Config.Extractors (AppState_Config appState))) = true
       /\ exists d : Z,
            GetEmbeddingModel appState "message"
            = Returned {| EmbeddingModel_Service := "openai";
                          EmbeddingModel_Dimensions := d |})
      \/ (EmbeddingsConfig.Enabled
            (Extractors.Messages_Embeddings
               (Config.Extractors (AppState_Config appState))) = false
          /\ EmbeddingsConfig.Enabled
               (Extractors.Documents_Embeddings
                  (Config.Extractors (AppState_Config appState))) = true
          /\ exists d : Z,
               GetEmbeddingModel appState "document"
               = Returned {| EmbeddingModel_Service := "openai";
                             EmbeddingModel_Dimensions := d |}).
Proof.
  unfold useOpenAIEmbeddings, GetEmbeddingModel. simpl.
  destruct (EmbeddingsConfig.Enabled (Extractors.Messages_Embeddings _)).
  - rewrite String.eqb_eq. split.
    + intros ->. left. eauto.
    + intros [[_ [d [= -> _]]] | [[=] _]]. reflexivity.
  - destruct (EmbeddingsConfig.Enabled (Extractors.Documents_Embeddings _)).
    + rewrite String.eqb_eq. split.
      * intros ->. right. eauto.
      * intros [[[=] _] | (_ & _ & d & [= -> _])]. reflexivity.
    + split; [discriminate|]. intros [[[=] _] | (_ & [=] & _)].
Qed.

(** X18. In every application state [GetEmbeddingModel] returns a model
    for the document types "message" and "document" only. With an
    embeddings client set and a non-empty text slice, embedding with the
    model it returns calls the local function when the service configured
    for that document type is "local" and the client's [EmbedTexts]
    otherwise, and nothing else. *)
Theorem GetEmbeddingModel_EmbedTexts (ctx : Context) (appState : AppState)
    (documentType : string) (model : EmbeddingModel) :
  GetEmbeddingModel appState documentType = Returned model ->
  (documentType = "message" \/ documentType = "document")
  /\ (forall (text : list string) (client : ZepLLM),
         text <> [] ->
         EmbeddingsClient appState = Some client ->
         EmbedTexts ctx appState model documentType text
         = if String.eqb
                (EmbeddingsConfig.Service
                   (if String.eqb documentType "message"
                    then Extractors.Messages_Embeddings
                           (Config.Extractors (AppState_Config appState))
                    else Extractors.Documents_Embeddings
                           (Config.Extractors (AppState_Config appState))))
                "local"
           then ([call_embedTextsLocal documentType text],
                 embedTextsLocal ctx (AppState_Config appState) documentType text)
           else ([call_client_EmbedTexts client text],
                 ZepLLM_EmbedTexts client ctx text)).
Proof.
  unfold GetEmbeddingModel.
  destruct (String.eqb_spec documentType "message") as [->|Hm].
  - intros [= <-]. split; [auto|].
    intros text client Htext Hclient. unfold EmbedTexts.
    rewrite (length_eqb_0_nonempty text Htext), Hclient. reflexivity.
  - destruct (String.eqb_spec documentType "document") as [->|Hd]; [|discriminate].
    intros [= <-]. split; [auto|].
    intros text client Htext Hclient. unfold EmbedTexts.
    rewrite (length_eqb_0_nonempty text Htext), Hclient. reflexivity.
Qed.

(** ** Properties of Float64ToFloat32Matrix *)

Lemma convert_row_spec (vs : list float64) :
  forall (row : list float32) (j : nat),
    length row = (j + length vs)%nat ->
    convert_row row j vs = (take j row ++ (float32_of_float64 <$> vs))%list.
Proof.
  induction vs as [|v vs IH]; intros row j Hlen; simpl in *.
  - rewrite take_ge by lia. rewrite app_nil_r. reflexivity.
  - rewrite IH by (rewrite length_insert; lia).
    rewrite (take_S_r _ _ (float32_of_float64 v))
      by (apply list_lookup_insert_eq; lia).
    rewrite take_insert_ge by lia. rewrite <- app_assoc. reflexivity.
Qed.

Lemma convert_rows_spec (rows : list (list float64)) :
  forall (out : list (list float32)) (i : nat),
    length out = (i + length rows)%nat ->
    convert_rows out i rows
    = (take i out ++ (fmap (M:=list) float32_of_float64 <$> rows))%list.
Proof.
  induction rows as [|r rows IH]; intros out i Hlen; simpl in *.
  - rewrite take_ge by lia. rewrite app_nil_r. reflexivity.
  - rewrite IH by (rewrite length_insert; lia).
    rewrite (take_S_r _ _ (float32_of_float64 <$> r)).
    + rewrite take_insert_ge by lia. rewrite <- app_assoc. reflexivity.
    + rewrite convert_row_spec by (rewrite length_replicate; lia).
      rewrite take_0. simpl. apply list_lookup_insert_eq. lia.
Qed.

(** X19. [Float64ToFloat32Matrix] converts element by element: the result
    has as many rows as the input, each row has the length of the input row,
    and the entry at a position is the conversion of the input's entry
    there; no zero of a fresh row is left in the result. *)
Theorem Float64ToFloat32Matrix_elementwise (input : list (list float64)) :
  Float64ToFloat32Matrix input = (fmap (M:=list) float32_of_float64 <$> input)
  /\ length (Float64ToFloat32Matrix input) = length input
  /\ (length <$> Float64ToFloat32Matrix input) = (length <$> input)
  /\ (forall (i j : nat) (row : list float64) (v : float64),
         input !! i = Some row -> row !! j = Some v ->
         exists out_row : list float32,
           Float64ToFloat32Matrix input !! i = Some out_row
           /\ out_row !! j = Some (float32_of_float64 v)).
Proof.
  assert (Heq : Float64ToFloat32Matrix input = (fmap (M:=list) float32_of_float64 <$> input)).
  { unfold Float64ToFloat32Matrix.
    rewrite convert_rows_spec by (rewrite length_replicate; lia).
    rewrite take_0. reflexivity. }
  rewrite Heq. split; [reflexivity|]. split; [apply length_fmap|]. split.
  - rewrite <- list_fmap_compose. apply list_fmap_ext.
    intros i row _. simpl. apply length_fmap.
  - intros i j row v Hi Hj. exists (float32_of_float64 <$> row). split.
    + rewrite list_lookup_fmap, Hi. reflexivity.
    + rewrite list_lookup_fmap, Hj. reflexivity.
Qed.

End zep.

Arguments mkZepOpenAILLM {Tiktoken Chat} llm tkm.
Arguments OpenAILLM {Tiktoken Chat AnthropicLLM} z.
Arguments AnthropicClient {Tiktoken Chat AnthropicLLM} a.
Arguments mkAppState {Tiktoken Chat AnthropicLLM} EmbeddingsClient AppState_Config.
Arguments call_embedTextsLocal {Tiktoken Chat AnthropicLLM} documentType text.
Arguments call_client_EmbedTexts {Tiktoken Chat AnthropicLLM} client text.

(** ** The definitions at the sample collaborators *)

Local Abbreviation sample_retryPolicy := (retryPolicy sample_DefaultRetryPolicy).
Local Abbreviation sample_client :=
  (NewRetryableHTTPClient sample_DefaultRetryPolicy sample_DefaultBackoff).
Local Abbreviation sample_resolve :=
  (resolve sample_DefaultRetryPolicy sample_DefaultBackoff unit unit unit
           sample_GetEncoding sample_NewChat sample_NewAnthropicLLM).
Local Abbreviation sample_NewLLMClient :=
  (NewLLMClient sample_DefaultRetryPolicy sample_DefaultBackoff unit unit unit
                sample_GetEncoding sample_NewChat sample_NewAnthropicLLM).
Local Abbreviation sample_EmbedTexts :=
  (EmbedTexts unit unit unit Z sample_embedTextsLocal sample_CreateEmbedding
              sample_AnthropicLLM_EmbedTexts).
Local Abbreviation sample_summarize :=
  (summarize sample_Complete sample_summary_prompt sample_count).
Local Abbreviation a_client := (OpenAILLM (mkZepOpenAILLM (Some tt) (Some tt))).

(** ** Examples *)

Example has_key_gpt4 : has_key ValidOpenAILLMs "gpt-4" = true.
Proof. vm_compute. reflexivity. Qed.

Example has_key_llama :
  has_key ValidOpenAILLMs "meta-llama/Llama-2-7b-chat-hf" = false
  /\ read ValidOpenSourceLLMs "meta-llama/Llama-2-7b-chat-hf" = true.
Proof. vm_compute. split; reflexivity. Qed.

(** Responses 500, 500, 200 under a budget of five: two retries, then the
    200 response with no error. *)
Example send_500_500_200 :
  send (sample_client 5 OpenAIAPITimeout) (fun _ => ctx_live)
       (fun i => match i with
                 | 0%nat | 1%nat => (Some (mkResponse 500), None)
                 | _ => (Some (mkResponse 200), None)
                 end)
  = (3%nat, (Some (mkResponse 200), None)).
Proof. vm_compute. reflexivity. Qed.

(** A known model and no endpoint override: the client is constructed. *)
Example NewLLMClient_plain :
  sample_NewLLMClient (Config.mk llm_plain (OpenAIEmbeddings.mk false llm_plain)
                                 extractors_off)
  = (Config.mk llm_plain (OpenAIEmbeddings.mk false llm_plain) extractors_off,
     Returned a_client).
Proof. vm_compute. reflexivity. Qed.

(** [TestSummarize] with a nil prior summary: twelve messages and a window
    of ten give the seventh-oldest message as the summary point. *)
Example summarize_TestSummarize_nil :
  sample_summarize 10 sample_messages None 0
  = Returned (Some (mkSummary "a summary" 9 107)).
Proof. vm_compute. reflexivity. Qed.

(** The position of a summary point is that of the first message carrying
    it: with a repeated identifier, a prior summary that points at the last
    message is taken to point at the first, and the call folds again. *)
Example summarize_duplicate_identifier :
  sample_summarize 0 duplicate_messages (Some (mkSummary "first" 1 7)) 0
  = Returned (Some (mkSummary "a summary" 9 7)).
Proof. vm_compute. reflexivity. Qed.

(** ** The retry policy on a 400 response and on a cancelled context *)

(** A single 400 response under a budget of five retries: one attempt. *)
Lemma retryPolicy_400_never_retried_witness :
  StatusCode (mkResponse 400) = 400%Z
  /\ (fst (send (sample_client 5 OpenAIAPITimeout) (fun _ => ctx_live)
                (fun _ => (Some (mkResponse 400), None)))
      <= 1)%nat.
Proof.
  split; [reflexivity|].
  apply (proj2 (proj2 (retryPolicy_400_never_retried
                         sample_DefaultRetryPolicy sample_DefaultBackoff
                         ctx_live (mkResponse 400) None eq_refl))).
  reflexivity.
Defined.



(** ** EmbedTexts at sample inputs *)

(** A set client and the service "local": the local function is called. *)
Lemma EmbedTexts_dispatch_witness :
  sample_EmbedTexts ctx_live (mkAppState (Some a_client) cfg_custom_llama)
    (mkEmbeddingModel "local" 384) "message" ["hello"]
  = ([call_embedTextsLocal "message" ["hello"]],
     sample_embedTextsLocal ctx_live cfg_custom_llama "message" ["hello"]).
Proof.
  apply (proj2 (EmbedTexts_dispatch unit unit unit Z sample_embedTextsLocal
                  sample_CreateEmbedding sample_AnthropicLLM_EmbedTexts
                  ctx_live (mkAppState (Some a_client) cfg_custom_llama)
                  (mkEmbeddingModel "local" 384) "message" ["hello"] a_client)).
  - discriminate.
  - reflexivity.
Defined.

(** The service "local" with a nil embeddings client: the local function is
    not called, and the call fails. *)
Lemma EmbedTexts_local_without_client :
  sample_EmbedTexts ctx_live (mkAppState None cfg_custom_llama)
    (mkEmbeddingModel "local" 384) "message" ["hello"]
  = ([], Failed (errorString "llm model is not set or is invalid"))
  /\ sample_EmbedTexts ctx_live (mkAppState None cfg_custom_llama)
       (mkEmbeddingModel "local" 384) "message" ["hello"]
     <> ([call_embedTextsLocal "message" ["hello"]],
         sample_embedTextsLocal ctx_live cfg_custom_llama "message" ["hello"]).
Proof. split; [reflexivity | discriminate]. Qed.

Lemma EmbedTexts_nil_client_witness :
  sample_EmbedTexts ctx_live (mkAppState None cfg_custom_llama)
    (mkEmbeddingModel "local" 384) "document" ["a"; "b"]
  = ([], Failed (errorString InvalidLLMModelError)).
Proof.
  apply (EmbedTexts_nil_client unit unit unit Z sample_embedTextsLocal
           sample_CreateEmbedding sample_AnthropicLLM_EmbedTexts).
  - discriminate.
  - reflexivity.
Defined.

(** ** The provider factory at sample configurations *)



(** Resolving a completion client through Azure overwrites the model of the
    configuration with the deployment name. *)
Lemma resolve_overwrites_model :
  LLM.Model (Config.LLM cfg_azure) = "gpt-4"
  /\ LLM.Model (Config.LLM (fst (sample_resolve cfg_azure for_completion)))
     = "gpt-3.5-turbo"
  /\ fst (sample_resolve cfg_azure for_completion) <> cfg_azure.
Proof. vm_compute. repeat split; [reflexivity .. | discriminate]. Qed.

(** With the service unset, a model that is in no registry gets a client. *)
Lemma NewLLMClient_unset_service_unknown_model :
  has_key ValidOpenAILLMs (LLM.Model (Config.LLM cfg_unset_service)) = false
  /\ LLM.OpenAIEndpoint (Config.LLM cfg_unset_service) = ""
  /\ LLM.AzureOpenAIEndpoint (Config.LLM cfg_unset_service) = ""
  /\ sample_resolve cfg_unset_service for_completion
     = (cfg_unset_service, Returned a_client).
Proof. vm_compute. repeat split; reflexivity. Qed.

Lemma resolve_rejects_unknown_model_witness :
  sample_resolve cfg_plain_unknown for_completion
  = (cfg_plain_unknown,
     Failed (errorString ("invalid llm model " ++ dquote ++ "no-such-model"
                          ++ dquote ++ " for openai"))).
Proof.
  apply (resolve_rejects_unknown_model
           sample_DefaultRetryPolicy sample_DefaultBackoff unit unit unit
           sample_GetEncoding sample_NewChat sample_NewAnthropicLLM
           cfg_plain_unknown for_completion eq_refl eq_refl).
  left. split; [reflexivity | vm_compute; reflexivity].
Defined.

(** The embedding deployment check, against the claim in both directions:
    for the purpose embeddings, with the Azure endpoint set, OpenAI
    embeddings in use and no embedding deployment, a client is returned when
    the main LLM configuration has a custom endpoint; and the check fires
    for the purpose completion. *)
Lemma resolve_azure_embedding_deployment_purpose :
  (LLM.AzureOpenAIEndpoint (deref cfg_azure_embeddings_custom_llm ref_EmbeddingsClient)
   = "https://example.openai.azure.com"
   /\ AzureOpenAIConfig.EmbeddingDeployment
        (LLM.AzureOpenAIModel
           (deref cfg_azure_embeddings_custom_llm ref_EmbeddingsClient)) = ""
   /\ useOpenAIEmbeddings cfg_azure_embeddings_custom_llm = true
   /\ sample_resolve cfg_azure_embeddings_custom_llm for_embeddings
      = (cfg_azure_embeddings_custom_llm, Returned a_client))
  /\ sample_resolve cfg_azure_completion for_completion
     = (cfg_azure_completion,
        Failed (errorString
                  "invalid embeddings deployment for openai, deployment name is required")).
Proof. vm_compute. repeat split; reflexivity. Qed.

Lemma resolve_azure_embedding_deployment_witness :
  snd (sample_resolve cfg_azure_embeddings for_embeddings)
  = Failed (errorString
              "invalid embeddings deployment for openai, deployment name is required").
Proof.
  apply (resolve_azure_embedding_deployment
           sample_DefaultRetryPolicy sample_DefaultBackoff unit unit unit
           sample_GetEncoding sample_NewChat sample_NewAnthropicLLM
           cfg_azure_embeddings for_embeddings eq_refl ltac:(discriminate) eq_refl).
  vm_compute. reflexivity.
Defined.

(** The check does not fire when no extractor embeds with OpenAI. *)
Example resolve_azure_embeddings_off :
  sample_resolve cfg_azure_embeddings_off for_completion
  = (cfg_azure_embeddings_off, Returned a_client).
Proof. vm_compute. reflexivity. Qed.

(** ** The summariser on the messages of TestSummarize *)

(** The case "With an existing summary" of [TestSummarize]. *)
Lemma summarize_summary_point_witness :
  exists m : Message,
    sample_messages !! 6%nat = Some m
    /\ sample_summarize 10 sample_messages (Some existing_summary) 0
       = Returned (Some {| Content := "a summary";
                           TokenCount := sample_count "a summary";
                           SummaryPointUUID := UUID m |}).
Proof.
  apply (summarize_summary_point sample_Complete sample_summary_prompt sample_count
           10 sample_messages (Some existing_summary) 0 "a summary").
  - reflexivity.
  - vm_compute. discriminate.
  - vm_compute. discriminate.
  - reflexivity.
  - reflexivity.
Defined.

(** A second call with the summary the first call returned gives that
    summary back. *)
Lemma summarize_idempotent_forward_witness :
  sample_summarize 10 sample_messages (Some (mkSummary "a summary" 9 107)) 0
  = Returned (Some (mkSummary "a summary" 9 107)).
Proof.
  apply (proj2 (proj2 (summarize_idempotent_forward
                         sample_Complete sample_summary_prompt sample_count
                         10 sample_messages None 0 (mkSummary "a summary" 9 107)
                         eq_refl))).
  apply (bool_decide_unpack _). vm_compute. exact I.
Defined.

(** ** The further functions at sample inputs *)

Local Abbreviation sample_NewOpenAILLM :=
  (NewOpenAILLM sample_DefaultRetryPolicy sample_DefaultBackoff unit unit
                sample_GetEncoding sample_NewChat).
Local Abbreviation sample_configureClient :=
  (configureClient sample_DefaultRetryPolicy sample_DefaultBackoff).
Local Abbreviation a_state :=
  (mkAppState (Some a_client) cfg_local_messages).

(** The Llama models are refused by [GetLLMModelName] unless an endpoint is
    set. *)
Example GetLLMModelName_llama :
  GetLLMModelName cfg_custom_llama = Returned "meta-llama/Llama-2-7b-chat-hf"
  /\ GetLLMModelName
       (Config.mk (LLM.mk "openai" "meta-llama/Llama-2-7b-chat-hf" "sk-test"
                          "" "" "" no_azure)
                  (OpenAIEmbeddings.mk true llm_plain) extractors_openai)
     = Failed (LLMError InvalidLLMModelError None).
Proof. vm_compute. split; reflexivity. Qed.

(** With the service unset a client is built for a model whose name
    [GetLLMModelName] refuses. *)
Example NewLLMClient_unset_service_GetLLMModelName :
  snd (sample_NewLLMClient cfg_unset_service) = Returned a_client
  /\ GetLLMModelName cfg_unset_service = Failed (LLMError InvalidLLMModelError None).
Proof. vm_compute. split; reflexivity. Qed.

Lemma NewOpenAILLM_client_initialised_witness :
  LLM.OpenAIAPIKey llm_plain <> ""
  /\ (LLM.AzureOpenAIEndpoint llm_plain = "" \/ LLM.OpenAIEndpoint llm_plain = "")
  /\ is_Some (llm unit unit (mkZepOpenAILLM (Some tt) (Some tt)))
  /\ is_Some (tkm unit unit (mkZepOpenAILLM (Some tt) (Some tt))).
Proof.
  apply (NewOpenAILLM_client_initialised
           sample_DefaultRetryPolicy sample_DefaultBackoff unit unit
           sample_GetEncoding sample_NewChat llm_plain
           (mkZepOpenAILLM (Some tt) (Some tt))).
  reflexivity.
Defined.

Lemma NewOpenAILLM_fatal_witness :
  sample_NewOpenAILLM llm_no_key = Fatal "ZEP_OPENAI_API_KEY is not set".
Proof.
  apply (proj1 (NewOpenAILLM_fatal
                  sample_DefaultRetryPolicy sample_DefaultBackoff unit unit
                  sample_GetEncoding sample_NewChat llm_no_key tt eq_refl)).
  reflexivity.
Defined.

(** Under an Azure endpoint the organization is not passed on, the Azure
    endpoint is the base URL. *)
Lemma configureClient_options_witness :
  WithBaseURL "https://example.openai.azure.com"
  ∈ [ WithHTTPClient (sample_client 5 OpenAIAPITimeout); WithModel "gpt-4";
      WithToken "sk-test"; WithAPIType_Azure;
      WithBaseURL "https://example.openai.azure.com" ]
  /\ WithOrganization "org-1"
     ∉ [ WithHTTPClient (sample_client 5 OpenAIAPITimeout); WithModel "gpt-4";
         WithToken "sk-test"; WithAPIType_Azure;
         WithBaseURL "https://example.openai.azure.com" ].
Proof.
  destruct (configureClient_options
              sample_DefaultRetryPolicy sample_DefaultBackoff
              (LLM.mk "openai" "gpt-4" "sk-test" "org-1" ""
                      "https://example.openai.azure.com" no_azure)
              [ WithHTTPClient (sample_client 5 OpenAIAPITimeout);
                WithModel "gpt-4"; WithToken "sk-test"; WithAPIType_Azure;
                WithBaseURL "https://example.openai.azure.com" ]
              eq_refl)
    as (_ & _ & Hurl & _ & _ & Horg).
  split.
  - apply Hurl. simpl. split; [discriminate | left; reflexivity].
  - intros Hin. apply Horg in Hin as (_ & Ha & _). simpl in Ha. discriminate.
Defined.

Lemma configureClient_http_client_witness :
  RetryMax (sample_client 5 OpenAIAPITimeout) = 5%Z
  /\ fst (Client_CheckRetry (sample_client 5 OpenAIAPITimeout) ctx_live
            (Some (mkResponse 400)) None) = false.
Proof.
  destruct (proj2 (configureClient_http_client
                     sample_DefaultRetryPolicy sample_DefaultBackoff
                     llm_plain
                     [ WithHTTPClient (sample_client 5 OpenAIAPITimeout);
                       WithModel "gpt-4"; WithToken "sk-test" ]
                     eq_refl)
                  (sample_client 5 OpenAIAPITimeout)
                  (list_elem_of_here _ _))
    as (Hmax & _ & H400 & _).
  split; [exact Hmax|]. apply H400. reflexivity.
Defined.

(** A 400 response with a live context: the error handed back is the
    attempt's. *)
Lemma retryPolicy_error_origin_witness :
  ctx_Err ctx_live = Some (errorString "bad request")
  \/ (ctx_Err ctx_live = None
      /\ Some (errorString "bad request") = Some (errorString "bad request")
      /\ exists r : Response,
           Some (mkResponse 400) = Some r /\ StatusCode r = 400%Z).
Proof.
  apply (retryPolicy_error_origin sample_DefaultRetryPolicy ctx_live
           (Some (mkResponse 400)) (Some (errorString "bad request"))
           (errorString "bad request")).
  reflexivity.
Defined.

Lemma resolve_client_kind_witness :
  (exists z : ZepOpenAILLM unit unit,
      @OpenAILLM unit unit unit (mkZepOpenAILLM (Some tt) (Some tt)) = OpenAILLM z
      /\ is_Some (llm unit unit z) /\ is_Some (tkm unit unit z)
      /\ (LLM.Service (deref cfg_custom_llama (purpose_ref for_completion)) = "openai"
          \/ LLM.Service (deref cfg_custom_llama (purpose_ref for_completion)) = ""))
  \/ (exists a : unit,
         @OpenAILLM unit unit unit (mkZepOpenAILLM (Some tt) (Some tt))
         = AnthropicClient a
         /\ for_completion = for_completion
         /\ LLM.Service (Config.LLM cfg_custom_llama) = "anthropic"
         /\ has_key ValidAnthropicLLMs (LLM.Model (Config.LLM cfg_custom_llama)) = true
         /\ sample_NewAnthropicLLM cfg_custom_llama = Returned a).
Proof.
  apply (resolve_client_kind
           sample_DefaultRetryPolicy sample_DefaultBackoff unit unit unit
           sample_GetEncoding sample_NewChat sample_NewAnthropicLLM
           cfg_custom_llama for_completion cfg_custom_llama a_client).
  vm_compute. reflexivity.
Defined.

(** "anthropic" is no service for an embeddings client. *)
Lemma resolve_unknown_service_witness :
  sample_resolve cfg_embeddings_anthropic for_embeddings
  = (cfg_embeddings_anthropic,
     Failed (errorString "invalid OpenAI Embeddings service: anthropic")).
Proof.
  apply (resolve_unknown_service
           sample_DefaultRetryPolicy sample_DefaultBackoff unit unit unit
           sample_GetEncoding sample_NewChat sample_NewAnthropicLLM
           cfg_embeddings_anthropic for_embeddings).
  - discriminate.
  - discriminate.
  - discriminate.
Defined.

Lemma NewLLMClient_both_endpoints_witness :
  snd (sample_NewLLMClient cfg_both_endpoints)
  = Fatal "only one of AzureOpenAIEndpoint or OpenAIEndpoint can be set".
Proof.
  apply (proj2 (NewLLMClient_both_endpoints
                  sample_DefaultRetryPolicy sample_DefaultBackoff unit unit unit
                  sample_GetEncoding sample_NewChat sample_NewAnthropicLLM
                  cfg_both_endpoints (or_introl eq_refl)
                  ltac:(discriminate) ltac:(discriminate)) tt eq_refl).
  discriminate.
Defined.

Lemma resolve_azure_invalid_deployment_witness :
  snd (sample_resolve cfg_azure_own_deployment for_completion)
  = Failed (errorString
              "invalid llm deployment for openai, deployment name is required").
Proof.
  apply (resolve_azure_invalid_deployment
           sample_DefaultRetryPolicy sample_DefaultBackoff unit unit unit
           sample_GetEncoding sample_NewChat sample_NewAnthropicLLM
           cfg_azure_own_deployment for_completion eq_refl
           ltac:(discriminate) eq_refl).
  vm_compute. reflexivity.
Defined.

(** After a resolution through Azure the name lookup gives the deployment
    name. *)
Lemma NewLLMClient_then_GetLLMModelName_witness :
  GetLLMModelName (fst (sample_NewLLMClient cfg_azure)) = Returned "gpt-3.5-turbo".
Proof.
  apply (NewLLMClient_then_GetLLMModelName
           sample_DefaultRetryPolicy sample_DefaultBackoff unit unit unit
           sample_GetEncoding sample_NewChat sample_NewAnthropicLLM
           cfg_azure (fst (sample_NewLLMClient cfg_azure)) a_client).
  - discriminate.
  - vm_compute. reflexivity.
Defined.

Lemma NewLLMClient_model_has_token_limit_witness :
  exists n : Z,
    MaxLLMTokensMap !! "meta-llama/Llama-2-7b-chat-hf" = Some n
    /\ (4096 <= n <= 100000)%Z.
Proof.
  apply (NewLLMClient_model_has_token_limit
           sample_DefaultRetryPolicy sample_DefaultBackoff unit unit unit
           sample_GetEncoding sample_NewChat sample_NewAnthropicLLM
           cfg_custom_llama cfg_custom_llama a_client).
  - left. split; reflexivity.
  - vm_compute. reflexivity.
Defined.

Lemma NewLLMClient_client_options_witness :
  exists (options : list openai_Option) (chat : unit),
    sample_NewChat options = inr chat
    /\ WithModel "gpt-3.5-turbo" ∈ options
    /\ WithAPIType_Azure ∈ options.
Proof.
  destruct (NewLLMClient_client_options
              sample_DefaultRetryPolicy sample_DefaultBackoff unit unit unit
              sample_GetEncoding sample_NewChat sample_NewAnthropicLLM
              cfg_azure (fst (sample_NewLLMClient cfg_azure))
              (mkZepOpenAILLM (Some tt) (Some tt)) eq_refl)
    as (options & chat & Hchat & _ & Hmodel & _ & Hazure).
  destruct (Hazure eq_refl ltac:(discriminate) ltac:(discriminate))
    as (_ & Htype & _).
  exists options, chat. split; [exact Hchat|]. split; [exact Hmodel | exact Htype].
Defined.

Lemma NewOpenAILLM_client_methods_witness :
  exists n : Z,
    ZepOpenAILLM_GetTokenCount unit unit sample_Encode
      (mkZepOpenAILLM (Some tt) (Some tt)) "hello" = Returned n
    /\ (0 <= n)%Z.
Proof.
  destruct (NewOpenAILLM_client_methods
              sample_DefaultRetryPolicy sample_DefaultBackoff unit unit
              sample_GetEncoding sample_NewChat Z sample_CreateEmbedding
              Z Z (fun t => t) 0%Z sample_Chat_Call sample_Encode
              llm_plain (mkZepOpenAILLM (Some tt) (Some tt)) eq_refl)
    as (chat & _ & _ & _ & Hcount).
  apply Hcount.
Defined.

(** Message embeddings configured as local go to the local function. *)
Lemma GetEmbeddingModel_EmbedTexts_witness :
  ("message" = "message" \/ "message" = "document")
  /\ sample_EmbedTexts ctx_live a_state (mkEmbeddingModel "local" 384)
       "message" ["hello"]
     = ([call_embedTextsLocal "message" ["hello"]],
        sample_embedTextsLocal ctx_live cfg_local_messages "message" ["hello"]).
Proof.
  destruct (GetEmbeddingModel_EmbedTexts unit unit unit Z sample_embedTextsLocal
              sample_CreateEmbedding sample_AnthropicLLM_EmbedTexts
              ctx_live a_state "message" (mkEmbeddingModel "local" 384) eq_refl)
    as [Htype Hembed].
  split; [exact Htype|].
  apply (Hembed ["hello"] a_client).
  - discriminate.
  - reflexivity.
Defined.

(** A document type the lookup does not know. *)
Example GetEmbeddingModel_invalid :
  GetEmbeddingModel unit unit unit a_state "summary"
  = Failed (errorString "invalid document type").
Proof. reflexivity. Qed.

(** A ragged matrix keeps its shape. *)
Example Float64ToFloat32Matrix_ragged :
  Float64ToFloat32Matrix Z Z (fun v => (2 * v)%Z) 0%Z [[1; 2; 3]; []; [4]]%Z
  = [[2; 4; 6]; []; [8]]%Z.
Proof. reflexivity. Qed.
